(** * User-management services: a shallow embedding of [main1.py] and
      [testing.py] and the properties of their CRUD surface.

    [main1.py] keeps its users in a Python list and names them by a
    random string; [testing.py] keeps them in a dict keyed by a small
    integer.  Both are FastAPI applications: a handler is a Python
    function over a module-level store, reached through the route
    table its decorators build.

    The development has these parts:
    - [Http]: JSON values and which of them can be written out, the
      exceptions a handler raises, the state-and-exception monad the
      handlers run in, the way the framework picks a route for a
      request, and its reader of integer path parameters, which is a
      parameter of the development;
    - [Main1]: the list-backed service of [main1.py];
    - [Testing]: the dict-backed service of [testing.py];
    - [Main]: the two arithmetic functions of [main.py];
    - [HttpFacts], [RouterFacts], [Main1Facts], [TestingFacts]: what
      holds of each;
    - [UserStore]: what holds of the store across the two services;
    - [Main1Behaviour], [TestingBehaviour], [MainFacts]: further
      behaviour: what requests can and cannot do to the stores, how
      the operations compose, what is never raised. *)

From Stdlib Require Import ZArith String Ascii List.
From Stdlib Require Import DecimalString DecimalPos DecimalZ.
From stdpp Require Import base option list gmap strings.

Set Warnings "-register-all".

Local Open Scope Z_scope.
Local Open Scope string_scope.

(* ===================================================================== *)
(** * Part 1: what the two services share                                 *)
(* ===================================================================== *)

Module Http.

(** ** JSON values

    The bodies the handlers return.  An object written as a dict
    literal keeps its members in the order of the literal. *)
Inductive json : Type :=
| JNull
| JInt (z : Z)
| JStr (s : string)
| JList (items : list json)
| JObj (members : list (string * json)).

(** ** Exceptions

    [HTTPException(status_code=..., detail=...)] is the only exception
    the source raises itself; [KeyError] is what [d[k]] and [del d[k]]
    raise on a missing key. *)
Inductive exn : Type :=
| HTTPException (status_code : Z) (detail : string)
| KeyError (key : Z).

Inductive outcome (A : Type) : Type :=
| Return (a : A)
| Raise (e : exn).
Arguments Return {A} a.
Arguments Raise {A} e.

(** ** The handler monad

    A handler reads and writes the module-level store and either
    returns or raises.  A raise keeps whatever the store was at that
    point: Python rolls nothing back. *)
Definition handler (S A : Type) : Type := S → outcome A * S.

Section monad.
Context {S : Type}.

Definition ret {A} (a : A) : handler S A := λ s, (Return a, s).

Definition bind {A B} (m : handler S A) (k : A → handler S B) : handler S B :=
  λ s, match m s with
       | (Return a, s') => k a s'
       | (Raise e, s') => (Raise e, s')
       end.

Definition raise {A} (e : exn) : handler S A := λ s, (Raise e, s).

(** Reading the global. *)
Definition get_state : handler S S := λ s, (Return s, s).

(** Mutating the global in place. *)
Definition modify (f : S → S) : handler S unit := λ s, (Return tt, f s).
End monad.

#[export] Instance handler_ret {S} : MRet (handler S) := λ A, @ret S A.
#[export] Instance handler_bind {S} : MBind (handler S) := λ A B k m, @bind S A B m k.

(** ** Requests and responses *)

Inductive method : Type := GET | HEAD | POST | PUT | PATCH | DELETE | OPTIONS.

#[export] Instance method_eq_dec : EqDecision method.
Proof. solve_decision. Defined.

(** A request carries its method, its path (without query string) and,
    when the client sent one that the framework could validate against
    the endpoint's model, its body; [B] is that model. *)
Record request (B : Type) : Type := Request {
  req_method : method;
  req_path : string;
  req_body : option B;
}.
Arguments Request {B} _ _ _.
Arguments req_method {B} _.
Arguments req_path {B} _.
Arguments req_body {B} _.

(** What goes back to the client.  [RequestValidationError] is the
    framework's 422 answer to a path parameter or a body that does not
    fit the endpoint's signature, [RedirectResponse] its 307 answer to
    a path that only matches with the trailing slash toggled, and
    [InternalServerError] its 500 answer to an exception that is not an
    [HTTPException]. *)
Inductive response : Type :=
| JSONResponse (status_code : Z) (content : json)
| RedirectResponse (url : string)
| RequestValidationError
| InternalServerError.

(** ** Text that cannot be sent

    A Python [str] is a sequence of code points and may hold a lone
    surrogate (U+D800 to U+DFFF): a JSON body brings one in as an
    escape.  UTF-8 has no form for it, so a body holding one cannot
    be written out.  A [str] is kept here as the bytes of its UTF-8
    form, a lone surrogate as the three bytes ED, A0..BF, 80..BF that
    the form would give it were it allowed. *)
Definition surrogate_tail (s : string) : bool :=
  match s with
  | String b _ => (160 <=? N_of_ascii b)%N && (N_of_ascii b <=? 191)%N
  | EmptyString => false
  end.

(** [s.encode("utf-8")] succeeds. *)
Fixpoint utf8_encodable (s : string) : bool :=
  match s with
  | EmptyString => true
  | String a s' =>
      negb ((N_of_ascii a =? 237)%N && surrogate_tail s') && utf8_encodable s'
  end.

(** The body can be written out: every string in it, member names
    included, can. *)
Fixpoint encodable (j : json) : bool :=
  match j with
  | JNull => true
  | JInt _ => true
  | JStr s => utf8_encodable s
  | JList items => forallb encodable items
  | JObj members =>
      forallb (λ member, utf8_encodable member.1 && encodable member.2) members
  end.

(** Sending a JSON body: a body that cannot be written out makes the
    framework answer 500 in its place. *)
Definition send (status_code : Z) (content : json) : response :=
  if encodable content then JSONResponse status_code content
  else InternalServerError.

(** The framework's handler for [HTTPException]: the status code, and
    the detail under the key ["detail"]. *)
Definition http_exception_handler (status_code : Z) (detail : string) : response :=
  send status_code (JObj [("detail", JStr detail)]).

(** An endpoint's outcome as a response; a returned value is sent with
    status 200.  The handler has run by then: a 500 for a body that
    cannot be written out undoes nothing of what it did to the
    store. *)
Definition respond {A} (encode : A → json) (o : outcome A) : response :=
  match o with
  | Return a => send 200 (encode a)
  | Raise (HTTPException status_code detail) => http_exception_handler status_code detail
  | Raise (KeyError _) => InternalServerError
  end.

(** ** Paths *)

(** [s.split(c)]: the pieces of [s] between occurrences of [c]. *)
Fixpoint split_on (c : ascii) (s : string) : list string :=
  match s with
  | EmptyString => [EmptyString]
  | String a s' =>
      if Ascii.eqb a c then EmptyString :: split_on c s'
      else match split_on c s' with
           | piece :: pieces => String a piece :: pieces
           | [] => [String a EmptyString]
           end
  end.

(** [s.rstrip("/")] *)
Fixpoint rstrip_slash (s : string) : string :=
  match s with
  | EmptyString => EmptyString
  | String a s' =>
      match rstrip_slash s' with
      | EmptyString => if Ascii.eqb a "/" then EmptyString else String a EmptyString
      | r => String a r
      end
  end.

(** [s.endswith("/")] *)
Fixpoint ends_with_slash (s : string) : bool :=
  match s with
  | EmptyString => false
  | String a EmptyString => Ascii.eqb a "/"
  | String _ s' => ends_with_slash s'
  end.

(** One piece of a route's path: literal text, or a parameter
    [{name}], which stands for any non-empty text without a slash. *)
Inductive segment : Type :=
| Lit (text : string)
| Param (name : string).

(** The text of [s] without its last character, when that is [c]. *)
Fixpoint strip_last (c : ascii) (s : string) : option string :=
  match s with
  | EmptyString => None
  | String a EmptyString => if Ascii.eqb a c then Some EmptyString else None
  | String a s' => String a <$> strip_last c s'
  end.

Definition compile_segment (s : string) : segment :=
  match s with
  | String "{" s' =>
      match strip_last "}" s' with
      | Some name => Param name
      | None => Lit s
      end
  | _ => Lit s
  end.

(** A route's path as the decorator spells it, cut at the slashes.
    Every parameter of the source fills a whole piece. *)
Definition compile_path (path : string) : list segment :=
  compile_segment <$> split_on "/" path.

(** Matching the pieces of a request path against a compiled route
    path; the result is the parameter values, in order. *)
Fixpoint match_segments (pattern : list segment) (pieces : list string)
  : option (list string) :=
  match pattern, pieces with
  | [], [] => Some []
  | Lit text :: pattern', piece :: pieces' =>
      if String.eqb text piece then match_segments pattern' pieces' else None
  | Param _ :: pattern', piece :: pieces' =>
      if String.eqb piece "" then None
      else (λ params, piece :: params) <$> match_segments pattern' pieces'
  | _, _ => None
  end.

(** ** Routes *)

Record route (E : Type) : Type := Route {
  route_path : string;
  route_methods : list method;
  route_endpoint : E;
}.
Arguments Route {E} _ _ _.
Arguments route_path {E} _.
Arguments route_methods {E} _.
Arguments route_endpoint {E} _.

Inductive route_match : Type :=
| MatchNone
| MatchPartial
| MatchFull (params : list string).

(** A route matches fully when path and method fit, partially when
    only the path does; [pieces] is the request path cut at the
    slashes. *)
Definition matches {E} (r : route E) (m : method) (pieces : list string) : route_match :=
  match match_segments (compile_path (route_path r)) pieces with
  | None => MatchNone
  | Some params =>
      if bool_decide (m ∈ route_methods r) then MatchFull params else MatchPartial
  end.

Inductive dispatch (E : Type) : Type :=
| Serve (endpoint : E) (params : list string)
| MethodNotAllowed
| Redirect (url : string)
| NotFound.
Arguments Serve {E} _ _.
Arguments MethodNotAllowed {E}.
Arguments Redirect {E} _.
Arguments NotFound {E}.

(** The first route that matches fully, in registration order; the
    flag records whether a partial match came before it. *)
Fixpoint first_match {E} (routes : list (route E)) (m : method) (pieces : list string)
  (partial : bool) : option (E * list string) * bool :=
  match routes with
  | [] => (None, partial)
  | r :: routes' =>
      match matches r m pieces with
      | MatchFull params => (Some (route_endpoint r, params), partial)
      | MatchPartial => first_match routes' m pieces true
      | MatchNone => first_match routes' m pieces partial
      end
  end.

Definition any_match {E} (routes : list (route E)) (m : method) (pieces : list string)
  : bool :=
  existsb (λ r, match matches r m pieces with MatchNone => false | _ => true end) routes.

(** The router: routes are tried in the order they were registered and
    the first full match is served.  Without a full match, a partial
    one answers 405; without any, a path that matches once its
    trailing slash is toggled is redirected, and everything else is
    404. *)
Definition route_request {E} (routes : list (route E)) (m : method) (path : string)
  : dispatch E :=
  match first_match routes m (split_on "/" path) false with
  | (Some (endpoint, params), _) => Serve endpoint params
  | (None, true) => MethodNotAllowed
  | (None, false) =>
      let redirect_path :=
        if ends_with_slash path then rstrip_slash path else path +:+ "/" in
      if bool_decide (path ≠ "/") && any_match routes m (split_on "/" redirect_path)
      then Redirect redirect_path
      else NotFound
  end.

(** The bodies the framework sends for its own 405 and 404. *)
Definition method_not_allowed : response :=
  http_exception_handler 405 "Method Not Allowed".
Definition not_found : response :=
  http_exception_handler 404 "Not Found".

(** [str(n)] *)
Definition str_int (n : Z) : string :=
  NilZero.string_of_int (Z.to_int n).

(** ** Path parameters declared [int]

    The framework reads the text of such a parameter as an integer,
    and answers 422 to text it does not read as one.  Its reader is
    not code of these files and accepts more spellings than one; it
    is a parameter of the service, of which this much is used: the
    decimal numeral of an integer, when at most 4300 characters long,
    is read as that integer. *)
Record int_reader : Type := IntReader {
  parse_int : string → option Z;
  parse_int_decimal n :
    (String.length (str_int n) ≤ 4300)%nat → parse_int (str_int n) = Some n;
}.

(** One such reader, the plainest: decimal digits after an optional
    minus sign, at most 4300 characters in all. *)
Definition read_decimal (s : string) : option Z :=
  if (String.length s <=? 4300)%nat
  then Z.of_int <$> NilZero.int_of_string s
  else None.

End Http.

(* ===================================================================== *)
(** * Part 2: [main1.py], users in a list, named by a random string      *)
(* ===================================================================== *)

Module Main1.
Import Http.

(** The request model. *)
Record UserCreate : Type := {
  name : string;
  email : string;
  phone : string;
  gender : string;
}.

(** The stored and returned model; its four data fields carry the
    names of [UserCreate]'s with an [r_] in front, the two records
    living in one name space here. *)
Record UserResponse : Type := {
  id : string;
  r_name : string;
  r_email : string;
  r_phone : string;
  r_gender : string;
}.

#[export] Instance UserResponse_eq_dec : EqDecision UserResponse.
Proof. solve_decision. Defined.

(** [users_db: List[UserResponse] = []] *)
Definition users_db : list UserResponse := [].

Definition home : handler (list UserResponse) json :=
  mret (JObj [("message", JStr "User Management API"); ("version", JStr "1.0.0")]).

(** [uuid4] is the text [str(uuid.uuid4())] comes to in this call: the
    random source is outside the program, so its draw is an input. *)
Definition create_user (uuid4 : string) (user : UserCreate)
  : handler (list UserResponse) UserResponse :=
  let user_id := uuid4 in
  let new_user := {| id := user_id;
                     r_name := name user;
                     r_email := email user;
                     r_phone := phone user;
                     r_gender := gender user |} in
  _ ← modify (λ db, (db ++ [new_user])%list);
  mret new_user.

Definition get_all_users : handler (list UserResponse) (list UserResponse) :=
  get_state.

(** The loop of [get_user_by_id]: the first user whose id is
    [user_id] ends it. *)
Fixpoint scan (user_id : string) (users : list UserResponse) : option UserResponse :=
  match users with
  | [] => None
  | user :: users' =>
      if String.eqb (id user) user_id then Some user else scan user_id users'
  end.

Definition get_user_by_id (user_id : string)
  : handler (list UserResponse) UserResponse :=
  db ← get_state;
  match scan user_id db with
  | Some user => mret user
  | None => raise (HTTPException 404 "User not found")
  end.

Definition get_users_count : handler (list UserResponse) json :=
  db ← get_state;
  mret (JObj [("total_users", JInt (Z.of_nat (length db)))]).

(** *** The application *)

(** [response_model=UserResponse] *)
Definition encode_user (u : UserResponse) : json :=
  JObj [("id", JStr (id u));
        ("name", JStr (r_name u));
        ("email", JStr (r_email u));
        ("phone", JStr (r_phone u));
        ("gender", JStr (r_gender u))].

(** [response_model=List[UserResponse]] *)
Definition encode_users (us : list UserResponse) : json :=
  JList (encode_user <$> us).

Inductive endpoint : Type :=
| ep_home
| ep_create_user
| ep_get_all_users
| ep_get_user_by_id
| ep_get_users_count.

(** The decorators, top to bottom. *)
Definition routes : list (route endpoint) :=
  [ Route "/" [GET] ep_home;
    Route "/users" [POST] ep_create_user;
    Route "/users" [GET] ep_get_all_users;
    Route "/users/{user_id}" [GET] ep_get_user_by_id;
    Route "/users/count" [GET] ep_get_users_count ].

Definition run {A} (encode : A → json) (h : handler (list UserResponse) A)
  (db : list UserResponse) : response * list UserResponse :=
  let (o, db') := h db in (respond encode o, db').

(** Calling an endpoint with the path parameters and the body of the
    request; [user_id: str] takes the parameter as it is. *)
Definition call (uuid4 : string) (ep : endpoint) (params : list string)
  (body : option UserCreate) (db : list UserResponse)
  : response * list UserResponse :=
  match ep, params with
  | ep_home, [] => run (λ j, j) home db
  | ep_create_user, [] =>
      match body with
      | Some user => run encode_user (create_user uuid4 user) db
      | None => (RequestValidationError, db)
      end
  | ep_get_all_users, [] => run encode_users get_all_users db
  | ep_get_user_by_id, [user_id] => run encode_user (get_user_by_id user_id) db
  | ep_get_users_count, [] => run (λ j, j) get_users_count db
  | _, _ => (InternalServerError, db)
  end.

Definition app (uuid4 : string) (req : request UserCreate) (db : list UserResponse)
  : response * list UserResponse :=
  match route_request routes (req_method req) (req_path req) with
  | Serve ep params => call uuid4 ep params (req_body req) db
  | MethodNotAllowed => (method_not_allowed, db)
  | Redirect url => (RedirectResponse url, db)
  | NotFound => (not_found, db)
  end.

(** The identifiers held, in list order. *)
Definition ids (db : list UserResponse) : list string := id <$> db.

(** Count and ListAll agree on a store: the number [get_users_count]
    reports is the length of the list [get_all_users] returns. *)
Definition count_agrees (db : list UserResponse) : Prop :=
  ∃ n users,
    get_users_count db = (Return (JObj [("total_users", JInt n)]), db) ∧
    get_all_users db = (Return users, db) ∧
    n = Z.of_nat (length users).

(** The stores the service can be in: it starts empty, and every
    request moves it on, whatever identifier is drawn for it. *)
Inductive reachable : list UserResponse → Prop :=
| reachable_init : reachable users_db
| reachable_step db uuid4 req :
    reachable db → reachable (app uuid4 req db).2.

(** Those of them reached while every draw was of an identifier no
    stored user carried.  Nothing in [create_user] sees to that: it is
    a condition on the random source. *)
Inductive reachable_by_fresh_draws : list UserResponse → Prop :=
| fresh_init : reachable_by_fresh_draws users_db
| fresh_step db uuid4 req :
    reachable_by_fresh_draws db → uuid4 ∉ ids db →
    reachable_by_fresh_draws (app uuid4 req db).2.

End Main1.

(* ===================================================================== *)
(** * Part 3: [testing.py], users in a dict, keyed by an integer         *)
(* ===================================================================== *)

Module Testing.
Import Http.

(** The request model; a stored user is the dict of the same four
    keys, so the record stands for both and [model_dump] changes
    nothing. *)
Record User : Type := {
  name : string;
  email : string;
  phone : string;
  gender : string;
}.

#[export] Instance User_eq_dec : EqDecision User.
Proof. solve_decision. Defined.

Definition model_dump (user : User) : User := user.

(** The dict the module starts with. *)
Definition user_db : gmap Z User :=
  list_to_map
    [ (1, {| name := "John"; email := "john@example.com"; phone := "1234567890"; gender := "male" |});
      (2, {| name := "Jane"; email := "jane@example.com"; phone := "0987654321"; gender := "female" |});
      (3, {| name := "Jim"; email := "jim@example.com"; phone := "1111111111"; gender := "male" |});
      (4, {| name := "Jill"; email := "jill@example.com"; phone := "2222222222"; gender := "female" |});
      (5, {| name := "Jack"; email := "jack@example.com"; phone := "3333333333"; gender := "male" |}) ].

(** *** The dict operations the handlers use *)

(** [k in user_db] *)
Definition contains (k : Z) : handler (gmap Z User) bool :=
  db ← get_state;
  mret (bool_decide (is_Some (db !! k))).

(** [user_db[k]] *)
Definition getitem (k : Z) : handler (gmap Z User) User :=
  db ← get_state;
  match db !! k with
  | Some v => mret v
  | None => raise (KeyError k)
  end.

(** [user_db[k] = v] *)
Definition setitem (k : Z) (v : User) : handler (gmap Z User) unit :=
  modify (insert k v).

(** [del user_db[k]] *)
Definition delitem (k : Z) : handler (gmap Z User) unit :=
  db ← get_state;
  match db !! k with
  | Some _ => modify (delete k)
  | None => raise (KeyError k)
  end.

(** [len(user_db)] *)
Definition len : handler (gmap Z User) Z :=
  db ← get_state;
  mret (Z.of_nat (size db)).

(** *** JSON *)

Definition encode_user (u : User) : json :=
  JObj [("name", JStr (name u));
        ("email", JStr (email u));
        ("phone", JStr (phone u));
        ("gender", JStr (gender u))].

(** A dict with integer keys is sent as an object whose member names
    are the keys in decimal.  The members come in the order
    [map_to_list] lists the map, which need not be the order the dict
    was filled in; the order of an object's members carries no
    meaning, and nothing below depends on it. *)
Definition encode_db (db : gmap Z User) : json :=
  JObj ((λ kv, (str_int kv.1, encode_user kv.2)) <$> map_to_list db).

(** *** The handlers *)

Definition home : handler (gmap Z User) json :=
  total_users ← len;
  mret (JObj [("message", JStr "User Update API"); ("total_users", JInt total_users)]).

Definition get_all_users : handler (gmap Z User) json :=
  db ← get_state;
  mret (JObj [("users", encode_db db)]).

Definition get_user (user_id : Z) : handler (gmap Z User) json :=
  present ← contains user_id;
  if (present : bool) then
    user ← getitem user_id;
    mret (JObj [("user_id", JInt user_id); ("user", encode_user user)])
  else
    raise (HTTPException 404 "User not found").

Definition update_user (user_id : Z) (user : User) : handler (gmap Z User) json :=
  present ← contains user_id;
  if (present : bool) then
    old_user ← getitem user_id;
    _ ← setitem user_id (model_dump user);
    new_data ← getitem user_id;
    mret (JObj [("message", JStr "User updated successfully");
                ("user_id", JInt user_id);
                ("old_data", encode_user old_user);
                ("new_data", encode_user new_data)])
  else
    raise (HTTPException 404 "User not found").

Definition delete_user (user_id : Z) : handler (gmap Z User) json :=
  present ← contains user_id;
  if (present : bool) then
    _ ← delitem user_id;
    mret (JObj [("message", JStr "User deleted successfully")])
  else
    raise (HTTPException 404 "User not found").

(** *** The application *)

Inductive endpoint : Type :=
| ep_home
| ep_get_all_users
| ep_get_user
| ep_update_user
| ep_delete_user.

(** The decorators, top to bottom. *)
Definition routes : list (route endpoint) :=
  [ Route "/" [GET] ep_home;
    Route "/users" [GET] ep_get_all_users;
    Route "/users/{user_id}" [GET] ep_get_user;
    Route "/users/{user_id}" [PUT] ep_update_user;
    Route "/users/v1/delete/{user_id}" [DELETE] ep_delete_user ].

Definition run (h : handler (gmap Z User) json) (db : gmap Z User)
  : response * gmap Z User :=
  let (o, db') := h db in (respond (λ j, j) o, db').

(** Calling an endpoint; [user_id: int] has the parameter read as an
    integer first, by the framework's reader [R]. *)
Definition call (R : int_reader) (ep : endpoint) (params : list string)
  (body : option User) (db : gmap Z User) : response * gmap Z User :=
  match ep, params with
  | ep_home, [] => run home db
  | ep_get_all_users, [] => run get_all_users db
  | ep_get_user, [p] =>
      match parse_int R p with
      | Some user_id => run (get_user user_id) db
      | None => (RequestValidationError, db)
      end
  | ep_update_user, [p] =>
      match parse_int R p, body with
      | Some user_id, Some user => run (update_user user_id user) db
      | _, _ => (RequestValidationError, db)
      end
  | ep_delete_user, [p] =>
      match parse_int R p with
      | Some user_id => run (delete_user user_id) db
      | None => (RequestValidationError, db)
      end
  | _, _ => (InternalServerError, db)
  end.

Definition app (R : int_reader) (req : request User) (db : gmap Z User)
  : response * gmap Z User :=
  match route_request routes (req_method req) (req_path req) with
  | Serve ep params => call R ep params (req_body req) db
  | MethodNotAllowed => (method_not_allowed, db)
  | Redirect url => (RedirectResponse url, db)
  | NotFound => (not_found, db)
  end.

(** The identifiers held. *)
Definition ids (db : gmap Z User) : list Z := (map_to_list db).*1.

(** The same agreement here, where the count is the [total_users] of
    [home] and the listing is the object under ["users"]. *)
Definition count_agrees (db : gmap Z User) : Prop :=
  ∃ n members,
    home db = (Return (JObj [("message", JStr "User Update API");
                             ("total_users", JInt n)]), db) ∧
    get_all_users db = (Return (JObj [("users", JObj members)]), db) ∧
    n = Z.of_nat (length members).

(** The stores the service can be in: it starts with the five seeded
    users, and every request moves it on. *)
Inductive reachable (R : int_reader) : gmap Z User → Prop :=
| reachable_init : reachable R user_db
| reachable_step db req : reachable R db → reachable R (app R req db).2.

End Testing.

(* ===================================================================== *)
(** * [main.py]: the two arithmetic endpoints                             *)
(* ===================================================================== *)

Module Main.

(** Python's [int] has no bound: [Z]. *)
Definition add (a b : Z) : Z := a + b.

Definition subtract (a b : Z) : Z := a - b.

Record SubtractModel : Type := {
  a : Z;
  b : Z;
}.

Definition subtract_number (model : SubtractModel) : Z :=
  subtract (a model) (b model).

End Main.

(* ===================================================================== *)
(** * Part 4: properties                                                  *)
(* ===================================================================== *)

Module HttpFacts.
Import Http.

(** ** Decimal numerals as path pieces *)

(** A character that is no slash stays in the piece it is in. *)
Lemma split_on_piece_cons a s :
  a ≠ "/"%char → split_on "/" s = [s] → split_on "/" (String a s) = [String a s].
Proof.
  intros Ha Hs. cbn [split_on]. rewrite Hs.
  by destruct (Ascii.eqb_spec a "/").
Qed.

(** Digits and the minus sign are not slashes: text that reads as a
    decimal integer is one piece of a path, and not the empty one. *)
Lemma uint_of_string_piece s d :
  NilEmpty.uint_of_string s = Some d → split_on "/" s = [s].
Proof.
  revert d; induction s as [|a s IH]; intros d; [done|].
  cbn [NilEmpty.uint_of_string].
  destruct (NilEmpty.uint_of_string s) as [d'|] eqn:Hs; [|done].
  intros Hd. apply uint_of_char_spec in Hd.
  apply split_on_piece_cons; [|by eapply IH].
  destruct Hd as [[-> _]|[[-> _]|[[-> _]|[[-> _]|[[-> _]|[[-> _]|
                 [[-> _]|[[-> _]|[[-> _]|[-> _]]]]]]]]]]; done.
Qed.

Lemma int_of_string_piece s d :
  NilZero.int_of_string s = Some d →
  split_on "/" s = [s] ∧ String.eqb s "" = false.
Proof.
  intros Hd. destruct s as [|a s]; [done|]. split; [|done].
  cbn [NilZero.int_of_string] in Hd.
  destruct (Ascii.eqb_spec a "-") as [->|Hne].
  - destruct s as [|b s]; [done|].
    cbn [NilZero.uint_of_string] in Hd.
    destruct (NilEmpty.uint_of_string (String b s)) as [d'|] eqn:Hs; [|done].
    apply split_on_piece_cons; [done|]. eapply uint_of_string_piece, Hs.
  - cbn [NilZero.uint_of_string] in Hd.
    destruct (NilEmpty.uint_of_string (String a s)) as [d'|] eqn:Hs; [|done].
    eapply uint_of_string_piece, Hs.
Qed.

(** Printing an integer and reading the numeral back. *)
Lemma int_of_string_str_int n :
  NilZero.int_of_string (str_int n) = Some (Z.to_int n).
Proof.
  unfold str_int. apply NilZero.isi.
  - destruct n; [done| |done]. cbn. intros [= H].
    by destruct (Pos.to_uint p) eqn:Hp; [apply (DecimalPos.Unsigned.to_uint_nonnil p)|..].
  - destruct n; [done|done|]. cbn. intros [= H].
    by apply (DecimalPos.Unsigned.to_uint_nonnil p).
Qed.

Lemma str_int_piece n :
  split_on "/" (str_int n) = [str_int n] ∧ String.eqb (str_int n) "" = false.
Proof. eapply int_of_string_piece, int_of_string_str_int. Qed.

Lemma read_decimal_str_int n :
  (String.length (str_int n) ≤ 4300)%nat → read_decimal (str_int n) = Some n.
Proof.
  intros Hlen. unfold read_decimal.
  apply Nat.leb_le in Hlen as ->.
  rewrite int_of_string_str_int. cbn. f_equal. apply DecimalZ.of_to.
Qed.

(** The plainest reader is a reader. *)
Definition decimal_reader : int_reader := IntReader read_decimal read_decimal_str_int.

Lemma str_int_inj : Inj (=) (=) str_int.
Proof.
  intros m n Hmn. apply (f_equal NilZero.int_of_string) in Hmn.
  rewrite !int_of_string_str_int in Hmn. injection Hmn as Hmn.
  by rewrite <- (DecimalZ.of_to m), <- (DecimalZ.of_to n), Hmn.
Qed.

(** ** Text that can be sent *)





Lemma encodable_obj_cons name value members :
  encodable (JObj ((name, value) :: members)) =
  utf8_encodable name && encodable value && encodable (JObj members).
Proof. done. Qed.

Lemma send_encodable status_code content :
  encodable content = true → send status_code content = JSONResponse status_code content.
Proof. unfold send. by intros ->. Qed.

End HttpFacts.

Module RouterFacts.
Import Http.

(** A served endpoint belongs to a registered route that takes the
    method and whose path fits. *)
Lemma first_match_Some {E} (routes : list (route E)) m pieces partial ep params partial' :
  first_match routes m pieces partial = (Some (ep, params), partial') →
  ∃ r, r ∈ routes ∧ route_endpoint r = ep ∧ m ∈ route_methods r ∧
       match_segments (compile_path (route_path r)) pieces = Some params.
Proof.
  revert partial. induction routes as [|r routes IH]; intros partial; [done|].
  cbn [first_match]. unfold matches.
  destruct (match_segments _ pieces) as [ps|] eqn:Hseg.
  - case_bool_decide as Hm.
    + intros [= <- <- _]. exists r. split; [apply list_elem_of_here|done].
    + intros (r' & ? & ?)%IH. exists r'. split; [by apply list_elem_of_further|done].
  - intros (r' & ? & ?)%IH. exists r'. split; [by apply list_elem_of_further|done].
Qed.

Lemma route_request_Serve {E} (routes : list (route E)) m path ep params :
  route_request routes m path = Serve ep params →
  ∃ r, r ∈ routes ∧ route_endpoint r = ep ∧ m ∈ route_methods r ∧
       match_segments (compile_path (route_path r)) (split_on "/" path) = Some params.
Proof.
  unfold route_request.
  destruct (first_match routes m (split_on "/" path) false) as [[[ep' params']|] partial] eqn:Hfm.
  - intros [= <- <-]. by eapply first_match_Some.
  - destruct partial; [done|]. by case_match.
Qed.

(** Without a full match, a route whose path fits leaves the partial
    flag set. *)
Lemma first_match_partial {E} (routes : list (route E)) m pieces partial partial' :
  first_match routes m pieces partial = (None, partial') →
  partial = true ∨
    (∃ r, r ∈ routes ∧
          is_Some (match_segments (compile_path (route_path r)) pieces)) →
  partial' = true.
Proof.
  revert partial. induction routes as [|r routes IH]; intros partial.
  - cbn [first_match]. intros [= <-] [?|(r & Hin & _)]; [done|].
    by apply elem_of_nil in Hin.
  - cbn [first_match]. unfold matches.
    destruct (match_segments _ pieces) as [ps|] eqn:Hseg.
    + case_bool_decide; [done|]. intros Hfm _. apply (IH true Hfm). by left.
    + intros Hfm Hfit. apply (IH partial Hfm).
      destruct Hfit as [?|(r' & Hin & Hr')]; [by left|]. right.
      apply elem_of_cons in Hin as [->|Hin]; [|by exists r'].
      rewrite Hseg in Hr'. by destruct Hr'.
Qed.

(** A match yields one value for each parameter of the path. *)
Lemma match_segments_length pattern pieces params :
  match_segments pattern pieces = Some params →
  length params =
  length (List.filter (λ seg, match seg with Param _ => true | Lit _ => false end) pattern).
Proof.
  revert pieces params. induction pattern as [|seg pattern IH]; intros pieces params.
  - destruct pieces; [|done]. by intros [= <-].
  - destruct pieces as [|piece pieces]; [by destruct seg|].
    destruct seg as [text|name]; cbn [match_segments List.filter].
    + destruct (String.eqb text piece); [|done]. apply IH.
    + destruct (String.eqb piece ""); [done|].
      destruct (match_segments pattern pieces) as [ps|] eqn:Hps; [|done].
      intros [= <-]. cbn [length]. f_equal. by eapply IH.
Qed.

End RouterFacts.


Module Main1Facts.
Import Http Main1.

(** ** The scan of [get_user_by_id] *)

Lemma scan_app user_id (l1 l2 : list UserResponse) :
  scan user_id (l1 ++ l2)%list =
  match scan user_id l1 with
  | Some user => Some user
  | None => scan user_id l2
  end.
Proof.
  induction l1 as [|u l1 IH]; [done|].
  cbn [List.app scan]. by destruct (String.eqb (id u) user_id).
Qed.

Lemma scan_None user_id (db : list UserResponse) :
  scan user_id db = None ↔ user_id ∉ ids db.
Proof.
  unfold ids. induction db as [|u db IH]; cbn [scan].
  - rewrite fmap_nil. split; [intros _; apply not_elem_of_nil | done].
  - rewrite fmap_cons, not_elem_of_cons.
    destruct (String.eqb_spec (id u) user_id) as [->|Hne].
    + split; [done | by intros [? _]].
    + rewrite IH. split; [by intros ?; split | by intros [_ ?]].
Qed.

Lemma scan_Some user_id (db : list UserResponse) user :
  scan user_id db = Some user → id user = user_id ∧ user ∈ db.
Proof.
  induction db as [|u db IH]; cbn [scan]; [done|].
  destruct (String.eqb_spec (id u) user_id) as [Heq|Hne].
  - intros [= <-]. split; [done | apply list_elem_of_here].
  - intros [? ?]%IH. split; [done | by apply list_elem_of_further].
Qed.

(** The first user carrying the identifier is the one found. *)
Lemma scan_first user_id (l1 l2 : list UserResponse) user :
  id user = user_id → user_id ∉ ids l1 →
  scan user_id (l1 ++ user :: l2)%list = Some user.
Proof.
  intros Hid Hl1. rewrite scan_app.
  apply scan_None in Hl1 as ->. cbn [scan].
  by destruct (String.eqb_spec (id user) user_id).
Qed.

(** ** What a request does to the store *)

Lemma run_create uuid4 user (db : list UserResponse) :
  create_user uuid4 user db =
  (Return {| id := uuid4; r_name := name user; r_email := email user;
             r_phone := phone user; r_gender := gender user |},
   (db ++ [{| id := uuid4; r_name := name user; r_email := email user;
              r_phone := phone user; r_gender := gender user |}])%list).
Proof. reflexivity. Qed.

Lemma run_store_unchanged {A} (encode : A → json) (h : handler (list UserResponse) A) db :
  (h db).2 = db → (run encode h db).2 = db.
Proof. unfold run. by destruct (h db). Qed.

Lemma get_user_by_id_store user_id (db : list UserResponse) :
  (get_user_by_id user_id db).2 = db.
Proof.
  unfold get_user_by_id, mbind, handler_bind, bind, get_state.
  by destruct (scan user_id db).
Qed.

(** A request leaves the list as it is or appends one user, whose
    identifier is the one drawn. *)
Lemma app_store uuid4 req (db : list UserResponse) :
  (app uuid4 req db).2 = db ∨
  ∃ new_user, id new_user = uuid4 ∧ (app uuid4 req db).2 = (db ++ [new_user])%list.
Proof.
  unfold app. destruct (route_request routes _ _) as [ep params| | |];
    [|by left..].
  unfold call.
  destruct ep, params as [|p [|p' params]]; try (by left).
  - destruct (req_body req) as [user|]; [|by left].
    right. eexists. split; [|unfold run; by rewrite run_create]. done.
  - left. apply run_store_unchanged, get_user_by_id_store.
Qed.

(** No route of the service takes [PUT]: on the path of a user it is
    answered 405, and the list stays as it was. *)
Lemma put_users_not_allowed uuid4 user_id body (db : list UserResponse) :
  split_on "/" user_id = [user_id] → user_id ≠ "" →
  app uuid4 (Request PUT ("/users/" +:+ user_id) body) db =
  (JSONResponse 405 (JObj [("detail", JStr "Method Not Allowed")]), db).
Proof.
  intros Hpiece Hne. unfold app, route_request. cbn [req_method req_path].
  assert (Hsplit : split_on "/" ("/users/" +:+ user_id) = [""; "users"; user_id]).
  { simpl. change ("" +:+ user_id) with user_id. by rewrite Hpiece. }
  rewrite Hsplit.
  destruct (first_match routes PUT [""; "users"; user_id] false)
    as [[[ep params]|] partial] eqn:Hfm.
  - apply RouterFacts.first_match_Some in Hfm as (r & Hin & _ & Hm & _).
    unfold routes in Hin. rewrite !elem_of_cons, elem_of_nil in Hin.
    destruct Hin as [->|[->|[->|[->|[->|[]]]]]];
      cbn [route_methods] in Hm; by apply list_elem_of_singleton in Hm.
  - rewrite (RouterFacts.first_match_partial _ _ _ _ _ Hfm); [done|].
    right. exists (Route "/users/{user_id}" [GET] ep_get_user_by_id).
    split; [unfold routes; rewrite !elem_of_cons; auto|].
    destruct user_id; [done|]. by eexists.
Qed.

(** ** [GET /users/count] *)

(** C1.  [GET /users/count] does not reach [get_users_count]: the
    route [/users/{user_id}] is registered above [/users/count] and
    takes the request with [user_id = "count"].  On the empty store the
    answer is 404 "User not found", and on no store is it
    [{"total_users": n}]. *)
Theorem users_count_route_shadowed :
  route_request routes GET "/users/count" = Serve ep_get_user_by_id ["count"] ∧
  (∀ uuid4 body,
     app uuid4 (Request GET "/users/count" body) users_db =
     (JSONResponse 404 (JObj [("detail", JStr "User not found")]), users_db)) ∧
  (∀ uuid4 body db n,
     (app uuid4 (Request GET "/users/count" body) db).1 ≠
     JSONResponse 200 (JObj [("total_users", JInt n)])).
Proof.
  split; [reflexivity|]. split; [reflexivity|].
  intros uuid4 body db n.
  change (app uuid4 (Request GET "/users/count" body) db)
    with (run encode_user (get_user_by_id "count") db).
  unfold run, get_user_by_id, mbind, handler_bind, bind, get_state.
  destruct (scan "count" db) as [user|]; cbn [fst respond mret handler_ret ret raise].
  - unfold send. destruct (encodable _); discriminate.
  - discriminate.
Qed.

(** ** Create, then get *)

(** C2, as the claim has it.  When the identifier drawn for a new user
    is one a stored user carries, Create returns the new record and
    a get by the returned identifier returns the stored one. *)
Lemma create_with_stored_draw_gets_earlier :
  let drawn := "3f2b8c1e-6d4a-4f7b-9a1c-2e5d7f8a9b0c" in
  let ann := {| id := drawn; r_name := "Ann"; r_email := "ann@example.com";
                r_phone := "555"; r_gender := "female" |} in
  let bea := {| id := drawn; r_name := "Bea"; r_email := "bea@example.com";
                r_phone := "557"; r_gender := "female" |} in
  let created :=
    create_user drawn {| name := "Bea"; email := "bea@example.com";
                         phone := "557"; gender := "female" |} [ann] in
  created = (Return bea, [ann; bea]) ∧
  get_user_by_id (id bea) created.2 = (Return ann, created.2) ∧
  (get_user_by_id (id bea) created.2).1 ≠ created.1.
Proof. repeat split; (reflexivity || discriminate). Qed.

(** C2, amended.  Create succeeds whatever the fields and the store:
    it appends the record, with the fields given, under the
    identifier drawn for it, which it does not compare with those
    held.  When no stored user carries the drawn identifier, a get by
    the returned identifier gives the record Create returned; when
    one does, the get gives what it gave before the Create, the
    stored user. *)
Theorem create_then_get_by_id uuid4 user (db : list UserResponse) :
  ∃ new_user db',
    create_user uuid4 user db = (Return new_user, db') ∧
    db' = (db ++ [new_user])%list ∧
    id new_user = uuid4 ∧
    (r_name new_user, r_email new_user, r_phone new_user, r_gender new_user) =
      (name user, email user, phone user, gender user) ∧
    (uuid4 ∉ ids db →
     get_user_by_id (id new_user) db' = (Return new_user, db')) ∧
    (uuid4 ∈ ids db →
     (get_user_by_id (id new_user) db').1 = (get_user_by_id uuid4 db).1 ∧
     ∃ stored, stored ∈ db ∧ (get_user_by_id (id new_user) db').1 = Return stored).
Proof.
  eexists _, _. split; [apply run_create|].
  split; [done|]. split; [done|]. split; [done|]. cbn [id].
  unfold get_user_by_id, mbind, handler_bind, bind, get_state. split.
  - intros Hfresh. by rewrite scan_first.
  - intros Hstored. rewrite scan_app.
    destruct (scan uuid4 db) as [stored|] eqn:Hscan.
    + split; [done|]. exists stored. split; [|done].
      by apply scan_Some in Hscan as [_ ?].
    + by apply scan_None in Hscan.
Qed.

Lemma create_then_get_by_id_witness :
  let ann := {| id := "6f1c"; r_name := "Ann"; r_email := "ann@example.com";
                r_phone := "555"; r_gender := "female" |} in
  let bob := {| name := "Bob"; email := "bob@example.com";
                phone := "556"; gender := "male" |} in
  (("9d2e" ∉ ids [ann]) ∧ "6f1c" ∈ ids [ann]) ∧
  get_user_by_id "9d2e" (create_user "9d2e" bob [ann]).2 =
    ((create_user "9d2e" bob [ann]).1, (create_user "9d2e" bob [ann]).2) ∧
  (get_user_by_id "6f1c" (create_user "6f1c" bob [ann]).2).1 = Return ann.
Proof.
  intros ann bob.
  assert (Hfresh : "9d2e" ∉ ids [ann]).
  { intros [H|H]%elem_of_cons; [discriminate H | by apply elem_of_nil in H]. }
  assert (Hstored : "6f1c" ∈ ids [ann]) by apply list_elem_of_here.
  split; [by split|]. split.
  - destruct (create_then_get_by_id "9d2e" bob [ann])
      as (new_user & db' & Hcreate & _ & Hid & _ & Hget & _).
    rewrite Hcreate. cbn [fst snd]. rewrite <- Hid at 1. by apply Hget.
  - destruct (create_then_get_by_id "6f1c" bob [ann])
      as (new_user & db' & Hcreate & _ & Hid & _ & _ & Hget).
    rewrite Hcreate. cbn [snd]. rewrite <- Hid at 1.
    by rewrite (proj1 (Hget Hstored)).
Defined.

(** ** Which record a get finds *)

(** C10.  [get_user_by_id] goes through the list from its head and
    returns the first user carrying the identifier; so when the same
    identifier was drawn for two creations, the record of the earlier
    one is what a get returns. *)
Theorem get_user_by_id_first :
  (∀ user_id (l1 l2 : list UserResponse) user,
     id user = user_id → user_id ∉ ids l1 →
     get_user_by_id user_id (l1 ++ user :: l2)%list =
     (Return user, (l1 ++ user :: l2)%list)) ∧
  (∀ uuid4 earlier later (db : list UserResponse),
     uuid4 ∉ ids db →
     let created := create_user uuid4 earlier db in
     let db'' := (create_user uuid4 later created.2).2 in
     get_user_by_id uuid4 db'' = (created.1, db'')).
Proof.
  split.
  - intros user_id l1 l2 user Hid Hl1.
    unfold get_user_by_id, mbind, handler_bind, bind, get_state.
    by rewrite scan_first.
  - intros uuid4 earlier later db Hfresh created db''. subst created db''.
    rewrite !run_create. cbn [fst snd].
    unfold get_user_by_id, mbind, handler_bind, bind, get_state.
    rewrite <- (assoc_L (++)). cbn [List.app]. by rewrite scan_first.
Qed.

Lemma get_user_by_id_first_witness :
  let ann := {| id := "a"; r_name := "Ann"; r_email := "ann@example.com";
                r_phone := "555"; r_gender := "female" |} in
  let bob := {| id := "b"; r_name := "Bob"; r_email := "bob@example.com";
                r_phone := "556"; r_gender := "male" |} in
  let bea := {| id := "b"; r_name := "Bea"; r_email := "bea@example.com";
                r_phone := "557"; r_gender := "female" |} in
  (id bob = "b" ∧ "b" ∉ ids [ann]) ∧
  get_user_by_id "b" [ann; bob; bea] = (Return bob, [ann; bob; bea]) ∧
  get_user_by_id "b"
    (create_user "b" {| name := "Bea"; email := "bea@example.com";
                        phone := "557"; gender := "female" |}
       (create_user "b" {| name := "Bob"; email := "bob@example.com";
                           phone := "556"; gender := "male" |} [ann]).2).2 =
  (Return bob, [ann; bob; bea]).
Proof.
  intros ann bob bea.
  assert (Hfresh : "b" ∉ ids [ann]).
  { intros [H|H]%elem_of_cons; [discriminate H | by apply elem_of_nil in H]. }
  split; [by split|]. split.
  - apply (proj1 get_user_by_id_first "b" [ann] [bea] bob eq_refl Hfresh).
  - apply (proj2 get_user_by_id_first "b"
             {| name := "Bob"; email := "bob@example.com";
                phone := "556"; gender := "male" |}
             {| name := "Bea"; email := "bea@example.com";
                phone := "557"; gender := "female" |} [ann] Hfresh).
Defined.

End Main1Facts.

Module TestingFacts.
Import Http Testing.

(** ** Which endpoint a path reaches *)

Lemma split_users seg :
  split_on "/" seg = [seg] → split_on "/" ("/users/" +:+ seg) = [""; "users"; seg].
Proof. intros Hs. simpl. change ("" +:+ seg) with seg. by rewrite Hs. Qed.

Lemma split_users_v1_delete seg :
  split_on "/" seg = [seg] →
  split_on "/" ("/users/v1/delete/" +:+ seg) = [""; "users"; "v1"; "delete"; seg].
Proof. intros Hs. simpl. change ("" +:+ seg) with seg. by rewrite Hs. Qed.

Lemma route_get_user seg :
  split_on "/" seg = [seg] → String.eqb seg "" = false →
  route_request routes GET ("/users/" +:+ seg) = Serve ep_get_user [seg].
Proof.
  intros Hs Hne. unfold route_request. rewrite (split_users _ Hs).
  destruct seg; [done|]. reflexivity.
Qed.

Lemma route_update_user seg :
  split_on "/" seg = [seg] → String.eqb seg "" = false →
  route_request routes PUT ("/users/" +:+ seg) = Serve ep_update_user [seg].
Proof.
  intros Hs Hne. unfold route_request. rewrite (split_users _ Hs).
  destruct seg; [done|]. reflexivity.
Qed.

Lemma route_delete_user seg :
  split_on "/" seg = [seg] → String.eqb seg "" = false →
  route_request routes DELETE ("/users/v1/delete/" +:+ seg) = Serve ep_delete_user [seg].
Proof.
  intros Hs Hne. unfold route_request. rewrite (split_users_v1_delete _ Hs).
  destruct seg; [done|]. reflexivity.
Qed.

(** ** The handlers on a present and on an absent identifier *)

Ltac run_handler H :=
  unfold get_user, update_user, delete_user, contains, getitem, setitem, delitem,
    model_dump, mbind, mret, handler_bind, handler_ret, bind, ret, raise,
    get_state, modify;
  repeat (rewrite ?H, ?lookup_insert_eq; cbn -[insert delete lookup]);
  try reflexivity.

Lemma get_user_present (db : gmap Z User) user_id user :
  db !! user_id = Some user →
  get_user user_id db =
  (Return (JObj [("user_id", JInt user_id); ("user", encode_user user)]), db).
Proof. intros H. by run_handler H. Qed.

Lemma get_user_absent (db : gmap Z User) user_id :
  db !! user_id = None →
  get_user user_id db = (Raise (HTTPException 404 "User not found"), db).
Proof. intros H. by run_handler H. Qed.

Lemma update_user_present (db : gmap Z User) user_id old user :
  db !! user_id = Some old →
  update_user user_id user db =
  (Return (JObj [("message", JStr "User updated successfully");
                 ("user_id", JInt user_id);
                 ("old_data", encode_user old);
                 ("new_data", encode_user user)]),
   <[user_id := user]> db).
Proof. intros H. by run_handler H. Qed.

Lemma update_user_absent (db : gmap Z User) user_id user :
  db !! user_id = None →
  update_user user_id user db = (Raise (HTTPException 404 "User not found"), db).
Proof. intros H. by run_handler H. Qed.

Lemma delete_user_present (db : gmap Z User) user_id user :
  db !! user_id = Some user →
  delete_user user_id db =
  (Return (JObj [("message", JStr "User deleted successfully")]), delete user_id db).
Proof. intros H. by run_handler H. Qed.

Lemma delete_user_absent (db : gmap Z User) user_id :
  db !! user_id = None →
  delete_user user_id db = (Raise (HTTPException 404 "User not found"), db).
Proof. intros H. by run_handler H. Qed.

(** ** Requests that name a user by its integer *)

Section requests.
Import HttpFacts.
Context (R : int_reader) (db : gmap Z User) (user_id : Z).
Hypothesis numeral : (String.length (str_int user_id) ≤ 4300)%nat.

Lemma app_get_user body :
  app R (Request GET ("/users/" +:+ str_int user_id) body) db =
  run (get_user user_id) db.
Proof.
  destruct (str_int_piece user_id) as [Hs Hne].
  unfold app; cbn [req_method req_path req_body].
  rewrite (route_get_user _ Hs Hne). unfold call.
  by rewrite (parse_int_decimal R _ numeral).
Qed.

Lemma app_update_user user :
  app R (Request PUT ("/users/" +:+ str_int user_id) (Some user)) db =
  run (update_user user_id user) db.
Proof.
  destruct (str_int_piece user_id) as [Hs Hne].
  unfold app; cbn [req_method req_path req_body].
  rewrite (route_update_user _ Hs Hne). unfold call.
  by rewrite (parse_int_decimal R _ numeral).
Qed.

Lemma app_delete_user body :
  app R (Request DELETE ("/users/v1/delete/" +:+ str_int user_id) body) db =
  run (delete_user user_id) db.
Proof.
  destruct (str_int_piece user_id) as [Hs Hne].
  unfold app; cbn [req_method req_path req_body].
  rewrite (route_delete_user _ Hs Hne). unfold call.
  by rewrite (parse_int_decimal R _ numeral).
Qed.
End requests.

(** ** Which endpoint a request can reach *)

Lemma testing_serve_cases m path ep params :
  route_request routes m path = Serve ep params →
  (ep = ep_home ∧ params = [] ∧ m = GET) ∨
  (ep = ep_get_all_users ∧ params = [] ∧ m = GET) ∨
  (∃ p, ep = ep_get_user ∧ params = [p] ∧ m = GET) ∨
  (∃ p, ep = ep_update_user ∧ params = [p] ∧ m = PUT) ∨
  (∃ p, ep = ep_delete_user ∧ params = [p] ∧ m = DELETE).
Proof.
  intros (r & Hin & <- & Hm & Hseg)%RouterFacts.route_request_Serve.
  apply RouterFacts.match_segments_length in Hseg.
  unfold routes in Hin. rewrite !elem_of_cons, elem_of_nil in Hin.
  destruct Hin as [->|[->|[->|[->|[->|[]]]]]];
    cbn [route_methods route_endpoint] in *;
    apply list_elem_of_singleton in Hm as ->;
    vm_compute in Hseg;
    destruct params as [|p [|p' params]]; try discriminate Hseg;
    eauto 10.
Qed.

(** What a request comes to: an answer of the framework's own, with
    the store as it was, or one handler run on the store. *)
Lemma app_cases R req (db : gmap Z User) :
  (∃ r, (r = method_not_allowed ∨ r = not_found ∨ r = RequestValidationError ∨
         ∃ url, r = RedirectResponse url) ∧ app R req db = (r, db)) ∨
  (req_method req = GET ∧
   (app R req db = run home db ∨ app R req db = run get_all_users db ∨
    ∃ user_id, app R req db = run (get_user user_id) db)) ∨
  (req_method req = PUT ∧
   ∃ user_id user, req_body req = Some user ∧
                   app R req db = run (update_user user_id user) db) ∨
  (req_method req = DELETE ∧
   ∃ user_id, app R req db = run (delete_user user_id) db).
Proof.
  unfold app.
  destruct (route_request routes _ _) as [ep params| |url|] eqn:Hr.
  - apply testing_serve_cases in Hr
      as [(-> & -> & Hm)|[(-> & -> & Hm)|[(p & -> & -> & Hm)|
         [(p & -> & -> & Hm)|(p & -> & -> & Hm)]]]]; unfold call.
    + right; left. eauto.
    + right; left. eauto.
    + destruct (parse_int R p) as [user_id|]; [right; left; eauto 6 | left; eauto 10].
    + destruct (parse_int R p) as [user_id|], (req_body req) as [user|];
        [right; right; left; eauto 6 | left; eauto 10 ..].
    + destruct (parse_int R p) as [user_id|]; [right; right; right; eauto | left; eauto 10].
  - left. eauto 10.
  - left. eauto 10.
  - left. eauto 10.
Qed.

(** The store a handler leaves. *)
Lemma update_user_store (db : gmap Z User) user_id user :
  (update_user user_id user db).2 =
  match db !! user_id with Some _ => <[user_id := user]> db | None => db end.
Proof.
  destruct (db !! user_id) as [old|] eqn:H.
  - by rewrite (TestingFacts.update_user_present _ _ _ _ H).
  - by rewrite (TestingFacts.update_user_absent _ _ _ H).
Qed.

Lemma delete_user_store (db : gmap Z User) user_id :
  (delete_user user_id db).2 = delete user_id db.
Proof.
  destruct (db !! user_id) as [old|] eqn:H.
  - by rewrite (TestingFacts.delete_user_present _ _ _ H).
  - rewrite (TestingFacts.delete_user_absent _ _ H). cbn [snd].
    symmetry. by apply delete_id.
Qed.

Lemma get_user_store (db : gmap Z User) user_id : (get_user user_id db).2 = db.
Proof.
  destruct (db !! user_id) as [old|] eqn:H.
  - by rewrite (TestingFacts.get_user_present _ _ _ H).
  - by rewrite (TestingFacts.get_user_absent _ _ H).
Qed.

Lemma run_store h (db : gmap Z User) : (run h db).2 = (h db).2.
Proof. unfold run. by destruct (h db). Qed.


(** No request adds an identifier. *)
Lemma app_dom R req (db : gmap Z User) : dom (app R req db).2 ⊆ dom db.
Proof.
  destruct (app_cases R req db)
    as [(r & _ & ->)|[(_ & [->|[->|(i & ->)]])|[(_ & i & u & _ & ->)|(_ & i & ->)]]];
    rewrite ?run_store; try done.
  - by rewrite get_user_store.
  - rewrite update_user_store. destruct (db !! i) as [old|] eqn:H; [|done].
    by rewrite dom_insert_lookup_L.
  - rewrite delete_user_store, dom_delete_L. by apply subseteq_difference_l.
Qed.

Lemma reachable_dom R (db : gmap Z User) : reachable R db → dom db ⊆ dom user_db.
Proof.
  induction 1 as [|db req _ IH]; [done|]. etrans; [apply app_dom | apply IH].
Qed.

(** What [get_all_users] lists: a member for each user held, named
    by its identifier in decimal; no name twice. *)
Lemma get_all_users_members (db : gmap Z User) :
  get_all_users db =
  (Return (JObj [("users",
                  JObj ((λ kv, (str_int kv.1, encode_user kv.2)) <$> map_to_list db))]),
   db).
Proof. reflexivity. Qed.

Lemma listing_names_distinct (db : gmap Z User) :
  NoDup ((λ kv : Z * User, (str_int kv.1, encode_user kv.2)) <$> map_to_list db).*1.
Proof.
  rewrite <- list_fmap_compose.
  rewrite (list_fmap_ext _ (str_int ∘ fst) (map_to_list db)) by done.
  rewrite list_fmap_compose.
  apply (NoDup_fmap_2 (Inj0:=HttpFacts.str_int_inj) str_int), NoDup_fst_map_to_list.
Qed.

(** The identifiers of a store the service can reach have short
    numerals: they are among 1 to 5. *)
Lemma reachable_numeral R (db : gmap Z User) user_id :
  reachable R db → is_Some (db !! user_id) →
  (String.length (str_int user_id) ≤ 4300)%nat.
Proof.
  intros Hdb Hin%elem_of_dom. apply (reachable_dom R db Hdb) in Hin.
  apply elem_of_dom in Hin as [user Huser].
  apply elem_of_list_to_map_2 in Huser.
  rewrite !elem_of_cons, elem_of_nil in Huser.
  destruct Huser as [[= -> _]|[[= -> _]|[[= -> _]|[[= -> _]|[[= -> _]|[]]]]]];
    cbn; lia.
Qed.

(** ** Update *)

(** C3.  On an identifier the store holds, Update answers with the
    message, the identifier, the record as it was under [old_data] and
    the supplied fields under [new_data]; what the store then holds
    under the identifier is the supplied record and nothing of the old
    one. *)
Theorem update_user_replaces (db : gmap Z User) user_id old user :
  db !! user_id = Some old →
  ∃ db',
    update_user user_id user db =
      (Return (JObj [("message", JStr "User updated successfully");
                     ("user_id", JInt user_id);
                     ("old_data", encode_user old);
                     ("new_data", encode_user user)]), db') ∧
    db' = <[user_id := user]> db ∧
    db' !! user_id = Some user.
Proof.
  intros Hold. eexists. split; [by apply update_user_present|].
  split; [done | apply lookup_insert_eq].
Qed.

Lemma update_user_replaces_witness :
  let john := {| name := "John"; email := "john@example.com";
                 phone := "1234567890"; gender := "male" |} in
  let jon := {| name := "Jon"; email := "jon@example.org";
                phone := "777"; gender := "other" |} in
  user_db !! 1 = Some john ∧
  ∃ db',
    update_user 1 jon user_db =
      (Return (JObj [("message", JStr "User updated successfully");
                     ("user_id", JInt 1);
                     ("old_data", encode_user john);
                     ("new_data", encode_user jon)]), db') ∧
    db' = <[1 := jon]> user_db ∧
    db' !! 1 = Some jon.
Proof.
  intros john jon. split; [reflexivity|].
  apply (update_user_replaces user_db 1 john jon). reflexivity.
Defined.

(** ** Delete *)

(** C6, as the claim has it: [DELETE /users/1] on the seeded store is
    answered 405, the store keeps user 1, and a following
    [GET /users/1] returns that user. *)
Lemma delete_users_1_method_not_allowed :
  let deleted := app HttpFacts.decimal_reader (Request DELETE "/users/1" None) user_db in
  let got := app HttpFacts.decimal_reader (Request GET "/users/1" None) deleted.2 in
  deleted.1 = JSONResponse 405 (JObj [("detail", JStr "Method Not Allowed")]) ∧
  deleted.1 ≠ JSONResponse 200 (JObj [("message", JStr "User deleted successfully")]) ∧
  deleted.2 = user_db ∧
  got.1 = JSONResponse 200
            (JObj [("user_id", JInt 1);
                   ("user", JObj [("name", JStr "John");
                                  ("email", JStr "john@example.com");
                                  ("phone", JStr "1234567890");
                                  ("gender", JStr "male")])]) ∧
  got.1 ≠ JSONResponse 404 (JObj [("detail", JStr "User not found")]).
Proof. repeat split; (reflexivity || discriminate). Qed.

(** C6, amended.  The delete route is [/users/v1/delete/{user_id}]:
    on an identifier the store holds, [DELETE] there removes the
    record and answers [{"message": "User deleted successfully"}],
    and a following [GET /users/{user_id}] is answered 404
    [{"detail": "User not found"}].  This holds on every store the
    service can reach, whatever the framework's reader of integers,
    and on any other store too when the numeral of the identifier has
    at most 4300 characters. *)
Theorem delete_then_get_not_found R (db : gmap Z User) user_id user body body' :
  reachable R db ∨ (String.length (str_int user_id) ≤ 4300)%nat →
  db !! user_id = Some user →
  ∃ db',
    app R (Request DELETE ("/users/v1/delete/" +:+ str_int user_id) body) db =
      (JSONResponse 200 (JObj [("message", JStr "User deleted successfully")]), db') ∧
    db' = delete user_id db ∧
    app R (Request GET ("/users/" +:+ str_int user_id) body') db' =
      (JSONResponse 404 (JObj [("detail", JStr "User not found")]), db').
Proof.
  intros Hid Huser.
  assert (Hnumeral : (String.length (str_int user_id) ≤ 4300)%nat).
  { destruct Hid as [Hdb|]; [|done]. by eapply reachable_numeral. }
  eexists. split; [|split; [reflexivity|]].
  - rewrite app_delete_user by done. unfold run.
    by rewrite (delete_user_present _ _ _ Huser).
  - rewrite app_get_user by done. unfold run.
    by rewrite (get_user_absent _ _ (lookup_delete_eq db user_id)).
Qed.

Lemma delete_then_get_not_found_witness :
  let R := HttpFacts.decimal_reader in
  (reachable R user_db ∧
   user_db !! 1 = Some {| name := "John"; email := "john@example.com";
                          phone := "1234567890"; gender := "male" |}) ∧
  ∃ db',
    app R (Request DELETE "/users/v1/delete/1" None) user_db =
      (JSONResponse 200 (JObj [("message", JStr "User deleted successfully")]), db') ∧
    db' = delete 1 user_db ∧
    app R (Request GET "/users/1" None) db' =
      (JSONResponse 404 (JObj [("detail", JStr "User not found")]), db').
Proof.
  intros R.
  assert (Hdb : reachable R user_db) by apply reachable_init.
  split; [by split|].
  apply (delete_then_get_not_found R user_db 1
           {| name := "John"; email := "john@example.com";
              phone := "1234567890"; gender := "male" |} None None
           (or_introl Hdb) eq_refl).
Defined.

(** ** What Update and Delete leave alone *)

(** C9.  On an identifier the store holds, Update and Delete leave
    every record under another identifier as it was; Update keeps the
    number of records, and Delete takes away exactly one, the one
    under the identifier. *)
Theorem update_delete_frame (db : gmap Z User) user_id old :
  db !! user_id = Some old →
  (∀ user other, other ≠ user_id →
     (update_user user_id user db).2 !! other = db !! other) ∧
  (∀ user, size (update_user user_id user db).2 = size db) ∧
  (∀ other, other ≠ user_id →
     (delete_user user_id db).2 !! other = db !! other) ∧
  (delete_user user_id db).2 !! user_id = None ∧
  size db = S (size (delete_user user_id db).2).
Proof.
  intros Hold.
  rewrite (delete_user_present _ _ _ Hold). cbn [snd].
  split; [|split; [|split; [|split]]].
  - intros user other Hne. rewrite (update_user_present _ _ _ _ Hold). cbn [snd].
    by apply lookup_insert_ne.
  - intros user. rewrite (update_user_present _ _ _ _ Hold). cbn [snd].
    by apply map_size_insert_Some.
  - intros other Hne. by apply lookup_delete_ne.
  - apply lookup_delete_eq.
  - rewrite <- (insert_delete_id db user_id old Hold) at 1.
    apply map_size_insert_None, lookup_delete_eq.
Qed.

Lemma update_delete_frame_witness :
  let john := {| name := "John"; email := "john@example.com";
                 phone := "1234567890"; gender := "male" |} in
  let jane := {| name := "Jane"; email := "jane@example.com";
                 phone := "0987654321"; gender := "female" |} in
  user_db !! 1 = Some john ∧
  (update_user 1 jane user_db).2 !! 2 = user_db !! 2 ∧
  (delete_user 1 user_db).2 !! 2 = user_db !! 2 ∧
  (delete_user 1 user_db).2 !! 1 = None ∧
  size user_db = S (size (delete_user 1 user_db).2).
Proof.
  intros john jane.
  pose proof (update_delete_frame user_db 1 john eq_refl) as (Hu & _ & Hd & Hgone & Hsize).
  split; [reflexivity|].
  split; [by apply Hu|]. split; [by apply Hd|]. by split.
Defined.

End TestingFacts.

(* ===================================================================== *)
(** * Part 5: the store, across its two variants                          *)
(* ===================================================================== *)

Module UserStore.
Import Http.

(** ** Not found *)

(** C4.  On an identifier the store does not hold, GetById (in both
    services), Update and Delete raise [HTTPException] with status 404
    and detail "User not found", which the client receives as a 404
    with body [{"detail": "User not found"}]; the store is what it
    was. *)
Theorem not_found_leaves_store :
  (∀ (db : list Main1.UserResponse) user_id,
     user_id ∉ Main1.ids db →
     Main1.get_user_by_id user_id db =
       (Raise (HTTPException 404 "User not found"), db)) ∧
  (∀ (db : gmap Z Testing.User) user_id user,
     db !! user_id = None →
     Testing.get_user user_id db =
       (Raise (HTTPException 404 "User not found"), db) ∧
     Testing.update_user user_id user db =
       (Raise (HTTPException 404 "User not found"), db) ∧
     Testing.delete_user user_id db =
       (Raise (HTTPException 404 "User not found"), db)) ∧
  (∀ A (encode : A → json),
     respond encode (Raise (HTTPException 404 "User not found")) =
     JSONResponse 404 (JObj [("detail", JStr "User not found")])).
Proof.
  split; [|split].
  - intros db user_id Habsent.
    unfold Main1.get_user_by_id, mbind, handler_bind, bind, get_state.
    by apply Main1Facts.scan_None in Habsent as ->.
  - intros db user_id user Habsent.
    split; [by apply TestingFacts.get_user_absent|].
    split; [by apply TestingFacts.update_user_absent|].
    by apply TestingFacts.delete_user_absent.
  - reflexivity.
Qed.

Lemma not_found_leaves_store_witness :
  let ann := {| Main1.id := "a"; Main1.r_name := "Ann";
                Main1.r_email := "ann@example.com";
                Main1.r_phone := "555"; Main1.r_gender := "female" |} in
  let zed := {| Testing.name := "Zed"; Testing.email := "zed@example.com";
                Testing.phone := "999"; Testing.gender := "male" |} in
  (("b" ∉ Main1.ids [ann]) ∧ Testing.user_db !! 9 = None) ∧
  Main1.get_user_by_id "b" [ann] =
    (Raise (HTTPException 404 "User not found"), [ann]) ∧
  Testing.get_user 9 Testing.user_db =
    (Raise (HTTPException 404 "User not found"), Testing.user_db) ∧
  Testing.update_user 9 zed Testing.user_db =
    (Raise (HTTPException 404 "User not found"), Testing.user_db) ∧
  Testing.delete_user 9 Testing.user_db =
    (Raise (HTTPException 404 "User not found"), Testing.user_db).
Proof.
  intros ann zed.
  assert (Hb : "b" ∉ Main1.ids [ann]).
  { intros [H|H]%elem_of_cons; [discriminate H | by apply elem_of_nil in H]. }
  assert (H9 : Testing.user_db !! 9 = None) by reflexivity.
  split; [by split|].
  split; [apply (proj1 not_found_leaves_store [ann] "b" Hb)|].
  apply (proj1 (proj2 not_found_leaves_store) Testing.user_db 9 zed H9).
Defined.

(** ** Count and ListAll *)

Lemma main1_count_agrees (db : list Main1.UserResponse) : Main1.count_agrees db.
Proof. by exists (Z.of_nat (length db)), db. Qed.

Lemma testing_count_agrees (db : gmap Z Testing.User) : Testing.count_agrees db.
Proof.
  eexists _, _. split; [reflexivity|]. split; [reflexivity|].
  by rewrite length_fmap, length_map_to_list.
Qed.

(** C5.  In both services the count reported is the length of the
    listing returned, on every store; so it is on every store the
    service can reach, and after Create, Update and Delete. *)
Theorem count_is_length_of_list :
  (∀ db, Main1.count_agrees db) ∧
  (∀ db, Main1.reachable db → Main1.count_agrees db) ∧
  (∀ db uuid4 user,
     Main1.count_agrees db →
     Main1.count_agrees (Main1.create_user uuid4 user db).2) ∧
  (∀ db, Testing.count_agrees db) ∧
  (∀ R db, Testing.reachable R db → Testing.count_agrees db) ∧
  (∀ db user_id user,
     Testing.count_agrees db →
     Testing.count_agrees (Testing.update_user user_id user db).2) ∧
  (∀ db user_id,
     Testing.count_agrees db →
     Testing.count_agrees (Testing.delete_user user_id db).2).
Proof.
  repeat split; intros; (apply main1_count_agrees || apply testing_count_agrees).
Qed.

Lemma count_is_length_of_list_witness :
  let ann := {| Main1.name := "Ann"; Main1.email := "ann@example.com";
                Main1.phone := "555"; Main1.gender := "female" |} in
  let db := (Main1.create_user "6f1c" ann Main1.users_db).2 in
  Main1.count_agrees Main1.users_db ∧
  Main1.get_users_count db = (Return (JObj [("total_users", JInt 1)]), db) ∧
  Main1.count_agrees db ∧
  Testing.count_agrees Testing.user_db ∧
  Testing.count_agrees (Testing.delete_user 1 Testing.user_db).2.
Proof.
  intros ann db.
  pose proof count_is_length_of_list as (H1 & _ & Hc & H2 & _ & _ & Hd).
  split; [apply H1|]. split; [reflexivity|].
  split; [apply (Hc Main1.users_db "6f1c" ann (H1 _))|].
  split; [apply H2|]. apply (Hd Testing.user_db 1 (H2 _)).
Defined.

(** ** Unique identifiers *)

Lemma ids_snoc (db : list Main1.UserResponse) new_user :
  Main1.ids (db ++ [new_user]) = (Main1.ids db ++ [Main1.id new_user])%list.
Proof. unfold Main1.ids. by rewrite fmap_app. Qed.

Lemma NoDup_snoc_iff (l : list string) x : NoDup (l ++ [x]) ↔ NoDup l ∧ x ∉ l.
Proof.
  rewrite NoDup_app. split.
  - intros (Hl & Hx & _). split; [done|]. intros Hin.
    by apply (Hx x Hin), list_elem_of_singleton.
  - intros [Hl Hx]. split; [done|]. split; [|apply NoDup_singleton].
    by intros y Hy ->%list_elem_of_singleton.
Qed.

Lemma create_unique_iff (db : list Main1.UserResponse) uuid4 user :
  NoDup (Main1.ids db) →
  NoDup (Main1.ids (Main1.create_user uuid4 user db).2) ↔ uuid4 ∉ Main1.ids db.
Proof.
  intros Hdb. rewrite Main1Facts.run_create. cbn [snd].
  rewrite ids_snoc, NoDup_snoc_iff. cbn [Main1.id].
  split; [by intros [_ ?] | by intros ?; split].
Qed.

Lemma fresh_draws_unique db :
  Main1.reachable_by_fresh_draws db → NoDup (Main1.ids db).
Proof.
  induction 1 as [|db uuid4 req _ IH Hfresh]; [apply NoDup_nil_2|].
  destruct (Main1Facts.app_store uuid4 req db) as [->|(new_user & Hid & ->)];
    [done|].
  rewrite ids_snoc, NoDup_snoc_iff, Hid. done.
Qed.

(** C7, as the claim has it.  Two [POST /users] for which the same
    identifier is drawn leave a store the service can be in whose two
    records carry that one identifier: [create_user] appends without
    looking at the identifiers held. *)
Lemma same_draw_twice_duplicates :
  let ann := {| Main1.name := "Ann"; Main1.email := "ann@example.com";
                Main1.phone := "555"; Main1.gender := "female" |} in
  let bea := {| Main1.name := "Bea"; Main1.email := "bea@example.com";
                Main1.phone := "557"; Main1.gender := "female" |} in
  let drawn := "3f2b8c1e-6d4a-4f7b-9a1c-2e5d7f8a9b0c" in
  let db1 := (Main1.app drawn (Request POST "/users" (Some ann)) Main1.users_db).2 in
  let db2 := (Main1.app drawn (Request POST "/users" (Some bea)) db1).2 in
  Main1.reachable db2 ∧
  Main1.ids db2 = [drawn; drawn] ∧
  ¬ NoDup (Main1.ids db2).
Proof.
  intros ann bea drawn db1 db2.
  split; [do 2 apply Main1.reachable_step; apply Main1.reachable_init|].
  split; [reflexivity|].
  intros [Hin _]%NoDup_cons. apply Hin, list_elem_of_here.
Qed.

(** C7, amended.  In [main1.py] the identifiers held are pairwise
    distinct on every store reached while each draw was of an
    identifier no stored record carried, and a Create on a store of
    distinct identifiers leaves them distinct exactly when its draw is
    carried by no stored record.  In [testing.py] the identifiers held
    are pairwise distinct on every store the service can reach, Update
    and Delete keep them so, and no name occurs twice in a listing. *)
Theorem identifiers_unique :
  (∀ db, Main1.reachable_by_fresh_draws db → NoDup (Main1.ids db)) ∧
  (∀ db uuid4 user,
     NoDup (Main1.ids db) →
     NoDup (Main1.ids (Main1.create_user uuid4 user db).2) ↔ uuid4 ∉ Main1.ids db) ∧
  (∀ R db, Testing.reachable R db → NoDup (Testing.ids db)) ∧
  (∀ db user_id user,
     NoDup (Testing.ids db) →
     NoDup (Testing.ids (Testing.update_user user_id user db).2)) ∧
  (∀ db user_id,
     NoDup (Testing.ids db) →
     NoDup (Testing.ids (Testing.delete_user user_id db).2)) ∧
  (∀ db : gmap Z Testing.User,
     ∃ members,
       Testing.get_all_users db = (Return (JObj [("users", JObj members)]), db) ∧
       NoDup members.*1).
Proof.
  split; [apply fresh_draws_unique|].
  split; [apply create_unique_iff|].
  split; [intros; apply NoDup_fst_map_to_list|].
  split; [intros; apply NoDup_fst_map_to_list|].
  split; [intros; apply NoDup_fst_map_to_list|].
  intros db. eexists. split; [apply TestingFacts.get_all_users_members|].
  apply TestingFacts.listing_names_distinct.
Qed.

Lemma identifiers_unique_witness :
  let ann := {| Main1.name := "Ann"; Main1.email := "ann@example.com";
                Main1.phone := "555"; Main1.gender := "female" |} in
  let bob := {| Main1.name := "Bob"; Main1.email := "bob@example.com";
                Main1.phone := "556"; Main1.gender := "male" |} in
  let db1 := (Main1.app "6f1c" (Request POST "/users" (Some ann)) Main1.users_db).2 in
  let db2 := (Main1.create_user "9d2e" bob db1).2 in
  (Main1.reachable_by_fresh_draws db1 ∧ "9d2e" ∉ Main1.ids db1) ∧
  NoDup (Main1.ids db1) ∧ NoDup (Main1.ids db2) ∧
  ¬ NoDup (Main1.ids (Main1.create_user "6f1c" bob db1).2) ∧
  NoDup (Testing.ids (Testing.delete_user 1 Testing.user_db).2).
Proof.
  intros ann bob db1 db2.
  pose proof identifiers_unique as (Hreach & Hcreate & Hreach' & _ & Hdelete & _).
  assert (Hr : Main1.reachable_by_fresh_draws db1).
  { apply Main1.fresh_step; [apply Main1.fresh_init | apply not_elem_of_nil]. }
  assert (Hfresh : "9d2e" ∉ Main1.ids db1).
  { intros [H|H]%elem_of_cons; [discriminate H | by apply elem_of_nil in H]. }
  assert (Hstored : "6f1c" ∈ Main1.ids db1) by apply list_elem_of_here.
  split; [by split|].
  split; [apply (Hreach db1 Hr)|].
  split; [apply (proj2 (Hcreate db1 "9d2e" bob (Hreach db1 Hr)) Hfresh)|].
  split; [intros Hdup; apply (proj1 (Hcreate db1 "6f1c" bob (Hreach db1 Hr)) Hdup Hstored)|].
  apply (Hdelete Testing.user_db 1),
    (Hreach' HttpFacts.decimal_reader), Testing.reachable_init.
Defined.

(** ** Create, update, get *)

(** C8, as the claim has it.  The service that has Create has no
    Update: after [POST /users] with the first fields, [PUT] on the
    created user's path is answered 405 and a following [GET] returns
    the record with the first fields, not the second.  The service
    that has Update answers 405 to [POST /users]. *)
Lemma create_update_get_keeps_created :
  let ann := {| Main1.name := "Ann"; Main1.email := "ann@example.com";
                Main1.phone := "555"; Main1.gender := "female" |} in
  let bea := {| Main1.name := "Bea"; Main1.email := "bea@example.com";
                Main1.phone := "557"; Main1.gender := "female" |} in
  let created := Main1.app "6f1c" (Request POST "/users" (Some ann)) Main1.users_db in
  let updated := Main1.app "9d2e" (Request PUT "/users/6f1c" (Some bea)) created.2 in
  let got := Main1.app "9d2e" (Request GET "/users/6f1c" None) updated.2 in
  created.1 = JSONResponse 200
                (JObj [("id", JStr "6f1c"); ("name", JStr "Ann");
                       ("email", JStr "ann@example.com");
                       ("phone", JStr "555"); ("gender", JStr "female")]) ∧
  updated.1 = JSONResponse 405 (JObj [("detail", JStr "Method Not Allowed")]) ∧
  got.1 = created.1 ∧
  got.1 ≠ JSONResponse 200
            (JObj [("id", JStr "6f1c"); ("name", JStr "Bea");
                   ("email", JStr "bea@example.com");
                   ("phone", JStr "557"); ("gender", JStr "female")]) ∧
  Testing.app HttpFacts.decimal_reader
    (Request POST "/users"
       (Some {| Testing.name := "Ann"; Testing.email := "ann@example.com";
                Testing.phone := "555"; Testing.gender := "female" |}))
    Testing.user_db =
  (JSONResponse 405 (JObj [("detail", JStr "Method Not Allowed")]), Testing.user_db).
Proof. repeat split; (reflexivity || discriminate). Qed.

(** C8, amended.  In the service that has Update, on an identifier the
    store holds, [PUT /users/{user_id}] with new fields puts them in
    the store, and when their text can be written out as UTF-8 the
    following [GET /users/{user_id}] returns the record with the new
    fields; the [PUT] itself is answered 200 when the text of the old
    record can be written out too.  The service that has Create has
    no Update: [PUT] on the path of a user is answered 405 and leaves
    the store as it was. *)
Theorem update_then_get :
  (∀ R (db : gmap Z Testing.User) user_id old user body,
     Testing.reachable R db ∨ (String.length (str_int user_id) ≤ 4300)%nat →
     db !! user_id = Some old →
     encodable (Testing.encode_user user) = true →
     ∃ db',
       (Testing.app R (Request PUT ("/users/" +:+ str_int user_id) (Some user)) db).2 = db' ∧
       db' = <[user_id := user]> db ∧
       (encodable (Testing.encode_user old) = true →
        (Testing.app R (Request PUT ("/users/" +:+ str_int user_id) (Some user)) db).1 =
        JSONResponse 200
          (JObj [("message", JStr "User updated successfully");
                 ("user_id", JInt user_id);
                 ("old_data", Testing.encode_user old);
                 ("new_data", Testing.encode_user user)])) ∧
       Testing.app R (Request GET ("/users/" +:+ str_int user_id) body) db' =
         (JSONResponse 200
            (JObj [("user_id", JInt user_id); ("user", Testing.encode_user user)]), db')) ∧
  (∀ uuid4 user_id body (db : list Main1.UserResponse),
     split_on "/" user_id = [user_id] → user_id ≠ "" →
     Main1.app uuid4 (Request PUT ("/users/" +:+ user_id) body) db =
     (JSONResponse 405 (JObj [("detail", JStr "Method Not Allowed")]), db)).
Proof.
  split; [|apply Main1Facts.put_users_not_allowed].
  intros R db user_id old user body Hid Hold Huser.
  assert (Hnumeral : (String.length (str_int user_id) ≤ 4300)%nat).
  { destruct Hid as [Hdb|]; [|done]. by eapply TestingFacts.reachable_numeral. }
  eexists. rewrite TestingFacts.app_update_user by done.
  unfold Testing.run. rewrite (TestingFacts.update_user_present _ _ _ _ Hold).
  cbn [fst snd]. split; [reflexivity|]. split; [reflexivity|]. split.
  - intros Hold_text. cbn [respond]. apply HttpFacts.send_encodable.
    rewrite !HttpFacts.encodable_obj_cons, Hold_text, Huser. reflexivity.
  - rewrite TestingFacts.app_get_user by done. unfold Testing.run.
    rewrite (TestingFacts.get_user_present _ _ _ (lookup_insert_eq db user_id user)).
    cbn [respond]. rewrite HttpFacts.send_encodable; [done|].
    rewrite !HttpFacts.encodable_obj_cons, Huser. reflexivity.
Qed.

Lemma update_then_get_witness :
  let R := HttpFacts.decimal_reader in
  let john := {| Testing.name := "John"; Testing.email := "john@example.com";
                 Testing.phone := "1234567890"; Testing.gender := "male" |} in
  let jon := {| Testing.name := "Jon"; Testing.email := "jon@example.org";
                Testing.phone := "777"; Testing.gender := "other" |} in
  (Testing.reachable R Testing.user_db ∧ Testing.user_db !! 1 = Some john ∧
   encodable (Testing.encode_user jon) = true ∧
   split_on "/" "6f1c" = ["6f1c"] ∧ "6f1c" ≠ "") ∧
  (∃ db',
     (Testing.app R (Request PUT "/users/1" (Some jon)) Testing.user_db).2 = db' ∧
     Testing.app R (Request GET "/users/1" None) db' =
       (JSONResponse 200
          (JObj [("user_id", JInt 1); ("user", Testing.encode_user jon)]), db')) ∧
  Main1.app "9d2e" (Request PUT "/users/6f1c" None) Main1.users_db =
    (JSONResponse 405 (JObj [("detail", JStr "Method Not Allowed")]), Main1.users_db).
Proof.
  intros R john jon.
  assert (Hdb : Testing.reachable R Testing.user_db) by apply Testing.reachable_init.
  assert (Hne : "6f1c" ≠ "") by discriminate.
  split; [by repeat split|]. split.
  - destruct (proj1 update_then_get R Testing.user_db 1 john jon None
                (or_introl Hdb) eq_refl eq_refl) as (db' & Hput & _ & _ & Hget).
    by exists db'.
  - apply (proj2 update_then_get "9d2e" "6f1c" None Main1.users_db eq_refl Hne).
Defined.

End UserStore.

(* ===================================================================== *)
(** * Part 6: further behaviour of the three files                        *)
(* ===================================================================== *)


Module Main1Behaviour.
Import Http Main1.

(** ** Which endpoint a request can reach *)

Lemma main1_serve_cases m path ep params :
  route_request routes m path = Serve ep params →
  (ep = ep_home ∧ params = [] ∧ m = GET) ∨
  (ep = ep_create_user ∧ params = [] ∧ m = POST) ∨
  (ep = ep_get_all_users ∧ params = [] ∧ m = GET) ∨
  (∃ user_id, ep = ep_get_user_by_id ∧ params = [user_id] ∧ m = GET) ∨
  (ep = ep_get_users_count ∧ params = [] ∧ m = GET).
Proof.
  intros (r & Hin & <- & Hm & Hseg)%RouterFacts.route_request_Serve.
  apply RouterFacts.match_segments_length in Hseg.
  unfold routes in Hin. rewrite !elem_of_cons, elem_of_nil in Hin.
  destruct Hin as [->|[->|[->|[->|[->|[]]]]]];
    cbn [route_methods route_endpoint] in *;
    apply list_elem_of_singleton in Hm as ->;
    vm_compute in Hseg;
    destruct params as [|p [|p' params]]; try discriminate Hseg;
    eauto 10.
Qed.

Lemma match_literals texts pieces params :
  match_segments (Lit <$> texts) pieces = Some params → pieces = texts.
Proof.
  revert pieces. induction texts as [|text texts IH]; intros [|piece pieces]; try done.
  rewrite fmap_cons. cbn [match_segments].
  destruct (String.eqb_spec text piece) as [->|]; [|done].
  intros ->%IH. done.
Qed.

Lemma route_get_user_by_id seg :
  split_on "/" seg = [seg] → seg ≠ "" →
  route_request routes GET ("/users/" +:+ seg) = Serve ep_get_user_by_id [seg].
Proof.
  intros Hs Hne. unfold route_request. rewrite (TestingFacts.split_users _ Hs).
  destruct seg; [done|]. reflexivity.
Qed.

Ltac run_get :=
  unfold get_user_by_id, mbind, handler_bind, bind, get_state, mret, handler_ret,
    ret, raise.

(** ** GetById *)

(** X1.  [get_user_by_id] never touches the list.  What it returns is
    a stored user carrying the identifier asked for; it returns one
    whenever some stored user carries it; and the only thing it raises
    is the 404 "User not found", which it raises only when no stored
    user carries the identifier. *)
Theorem get_user_by_id_exact user_id (db : list UserResponse) :
  (get_user_by_id user_id db).2 = db ∧
  (∀ user, (get_user_by_id user_id db).1 = Return user →
           id user = user_id ∧ user ∈ db) ∧
  (user_id ∈ ids db → ∃ user, (get_user_by_id user_id db).1 = Return user) ∧
  (∀ e, (get_user_by_id user_id db).1 = Raise e →
        e = HTTPException 404 "User not found" ∧ user_id ∉ ids db).
Proof.
  split; [apply Main1Facts.get_user_by_id_store|].
  run_get. destruct (scan user_id db) as [found|] eqn:Hscan; cbn [fst].
  - split; [|split].
    + intros user [= <-]. by apply Main1Facts.scan_Some in Hscan.
    + by eexists.
    + done.
  - apply Main1Facts.scan_None in Hscan. split; [done|]. split; [done|].
    by intros e [= <-].
Qed.

Lemma get_user_by_id_exact_witness :
  let ann := {| id := "a"; r_name := "Ann"; r_email := "ann@example.com";
                r_phone := "555"; r_gender := "female" |} in
  ((get_user_by_id "a" [ann]).1 = Return ann ∧ "a" ∈ ids [ann] ∧
   (get_user_by_id "b" [ann]).1 = Raise (HTTPException 404 "User not found")) ∧
  (id ann = "a" ∧ ann ∈ [ann]) ∧
  (∃ user, (get_user_by_id "a" [ann]).1 = Return user) ∧
  ("b" ∉ ids [ann]).
Proof.
  intros ann.
  assert (Ha : "a" ∈ ids [ann]) by apply list_elem_of_here.
  split; [by repeat split|].
  split; [apply (proj1 (proj2 (get_user_by_id_exact "a" [ann])) ann eq_refl)|].
  split; [apply (proj1 (proj2 (proj2 (get_user_by_id_exact "a" [ann]))) Ha)|].
  apply (proj2 (proj2 (proj2 (get_user_by_id_exact "b" [ann]))) _ eq_refl).
Defined.

(** ** Create *)

(** X2.  Create leaves every earlier answer of GetById as it was: for
    an identifier some stored user carries, a get after the creation
    returns what it returned before, whatever identifier was drawn
    for the new user. *)
Theorem create_keeps_stored_lookups uuid4 user user_id (db : list UserResponse) :
  user_id ∈ ids db →
  (get_user_by_id user_id (create_user uuid4 user db).2).1 =
  (get_user_by_id user_id db).1.
Proof.
  intros Hstored. rewrite Main1Facts.run_create. cbn [snd]. run_get.
  rewrite Main1Facts.scan_app.
  destruct (scan user_id db) eqn:Hscan; [done|].
  by apply Main1Facts.scan_None in Hscan.
Qed.

Lemma create_keeps_stored_lookups_witness :
  let ann := {| id := "a"; r_name := "Ann"; r_email := "ann@example.com";
                r_phone := "555"; r_gender := "female" |} in
  let bea := {| name := "Bea"; email := "bea@example.com";
                phone := "557"; gender := "female" |} in
  "a" ∈ ids [ann] ∧
  (get_user_by_id "a" (create_user "a" bea [ann]).2).1 = Return ann.
Proof.
  intros ann bea.
  assert (Ha : "a" ∈ ids [ann]) by apply list_elem_of_here.
  split; [done|].
  apply (create_keeps_stored_lookups "a" bea "a" [ann] Ha).
Defined.

(** X3.  After a Create the listing is the listing before followed by
    the record Create returned, and the count is one more than the
    count before. *)
Theorem create_extends_listing uuid4 user (db : list UserResponse) :
  ∃ new_user n,
    (create_user uuid4 user db).1 = Return new_user ∧
    (get_all_users (create_user uuid4 user db).2).1 = Return (db ++ [new_user])%list ∧
    (get_users_count db).1 = Return (JObj [("total_users", JInt n)]) ∧
    (get_users_count (create_user uuid4 user db).2).1 =
      Return (JObj [("total_users", JInt (n + 1))]).
Proof.
  rewrite Main1Facts.run_create. cbn [fst snd].
  eexists _, _. split; [done|]. split; [done|]. split; [reflexivity|].
  unfold get_users_count, mbind, handler_bind, bind, get_state, mret, handler_ret, ret.
  cbn [fst]. rewrite length_app. cbn [length]. by rewrite Nat2Z.inj_add.
Qed.

(** ** What a request can do to the list *)

(** X4.  No request removes or alters a stored user: the list after a
    request starts with the list before it and is at most one user
    longer, and it is the same list unless the request is a [POST]. *)
Theorem store_only_grows uuid4 req (db : list UserResponse) :
  db `prefix_of` (app uuid4 req db).2 ∧
  (length (app uuid4 req db).2 ≤ S (length db))%nat ∧
  (req_method req ≠ POST → (app uuid4 req db).2 = db).
Proof.
  split; [|split].
  - destruct (Main1Facts.app_store uuid4 req db) as [->|(new_user & _ & ->)];
      [done | by apply prefix_app_r].
  - destruct (Main1Facts.app_store uuid4 req db) as [->|(new_user & _ & ->)];
      [lia | rewrite length_app; cbn [length]; lia].
  - intros Hm. unfold app.
    destruct (route_request routes _ _) as [ep params| | |] eqn:Hr; [|done..].
    apply main1_serve_cases in Hr
      as [(-> & -> & _)|[(_ & _ & ?)|[(-> & -> & _)|[(p & -> & -> & _)|(-> & -> & _)]]]];
      [done..| |done].
    apply Main1Facts.run_store_unchanged, Main1Facts.get_user_by_id_store.
Qed.

Lemma store_only_grows_witness :
  let ann := {| id := "a"; r_name := "Ann"; r_email := "ann@example.com";
                r_phone := "555"; r_gender := "female" |} in
  let req := Request PUT "/users/a"
               (Some {| name := "Bea"; email := "bea@example.com";
                        phone := "557"; gender := "female" |}) in
  req_method req ≠ POST ∧ (app "9d2e" req [ann]).2 = [ann].
Proof.
  intros ann req.
  assert (Hm : req_method req ≠ POST) by discriminate.
  split; [done|].
  apply (proj2 (proj2 (store_only_grows "9d2e" req [ann])) Hm).
Defined.

(** X5.  Over HTTP: after [POST /users] has created a user under an
    identifier no stored user carried, [GET /users/{id}] with that
    identifier is answered exactly as the [POST] was and leaves the
    store as the [POST] left it.  That answer is the created record
    with status 200 when the text of the record can be written out as
    UTF-8, and a 500 when it cannot; the user is stored either way.
    The identifier has to be one piece of a path: not empty, no
    slash. *)
Theorem post_then_get uuid4 uuid4' user body (db : list UserResponse) :
  uuid4 ∉ ids db → split_on "/" uuid4 = [uuid4] → uuid4 ≠ "" →
  let posted := app uuid4 (Request POST "/users" (Some user)) db in
  let new_user := {| id := uuid4; r_name := name user; r_email := email user;
                     r_phone := phone user; r_gender := gender user |} in
  posted.2 = (db ++ [new_user])%list ∧
  (encodable (encode_user new_user) = true →
   posted.1 = JSONResponse 200
                (JObj [("id", JStr uuid4); ("name", JStr (name user));
                       ("email", JStr (email user)); ("phone", JStr (phone user));
                       ("gender", JStr (gender user))])) ∧
  (encodable (encode_user new_user) = false → posted.1 = InternalServerError) ∧
  app uuid4' (Request GET ("/users/" +:+ uuid4) body) posted.2 = posted.
Proof.
  intros Hfresh Hpiece Hne posted new_user.
  assert (Hposted : posted = run encode_user (create_user uuid4 user) db) by reflexivity.
  unfold run in Hposted. rewrite Main1Facts.run_create in Hposted.
  fold new_user in Hposted. rewrite Hposted. cbn [fst snd respond].
  split; [done|]. split; [|split].
  - intros Htext. by apply HttpFacts.send_encodable.
  - intros Htext. unfold send. by rewrite Htext.
  - unfold app; cbn [req_method req_path req_body].
    rewrite (route_get_user_by_id _ Hpiece Hne). unfold call, run. run_get.
    by rewrite Main1Facts.scan_first.
Qed.

Lemma post_then_get_witness :
  let ann := {| name := "Ann"; email := "ann@example.com";
                phone := "555"; gender := "female" |} in
  let stored := {| id := "9d2e"; r_name := "Bob"; r_email := "bob@example.com";
                   r_phone := "556"; r_gender := "male" |} in
  let posted := app "6f1c" (Request POST "/users" (Some ann)) [stored] in
  (("6f1c" ∉ ids [stored]) ∧ split_on "/" "6f1c" = ["6f1c"] ∧ "6f1c" ≠ "") ∧
  posted.1 = JSONResponse 200
               (JObj [("id", JStr "6f1c"); ("name", JStr "Ann");
                      ("email", JStr "ann@example.com"); ("phone", JStr "555");
                      ("gender", JStr "female")]) ∧
  app "9d2e" (Request GET "/users/6f1c" None) posted.2 = posted.
Proof.
  intros ann stored posted.
  assert (Hfresh : "6f1c" ∉ ids [stored]).
  { intros [H|H]%elem_of_cons; [discriminate H | by apply elem_of_nil in H]. }
  assert (Hne : "6f1c" ≠ "") by discriminate.
  split; [by repeat split|].
  destruct (post_then_get "6f1c" "9d2e" ann None [stored] Hfresh eq_refl Hne)
    as (_ & Hsent & _ & Hget).
  split; [apply (Hsent eq_refl) | apply Hget].
Defined.

(** ** The count endpoint *)

(** X6.  No request reaches [get_users_count], whatever its method and
    path: the one path its route takes, [/users/count], is taken
    first by [/users/{user_id}]. *)
Theorem users_count_never_served m path params :
  route_request routes m path ≠ Serve ep_get_users_count params.
Proof.
  intros Hr.
  destruct (RouterFacts.route_request_Serve _ _ _ _ _ Hr) as (r & Hin & Hep & Hm & Hseg).
  unfold routes in Hin. rewrite !elem_of_cons, elem_of_nil in Hin.
  destruct Hin as [->|[->|[->|[->|[->|[]]]]]]; try discriminate Hep.
  cbn [route_methods] in Hm. apply list_elem_of_singleton in Hm as ->.
  apply (match_literals [""; "users"; "count"]) in Hseg.
  unfold route_request in Hr. rewrite Hseg in Hr. discriminate Hr.
Qed.

End Main1Behaviour.

Module TestingBehaviour.
Import Http Testing.

(** ** Exceptions *)




(** ** What a request can do to the dict *)

(** X8.  No request adds an identifier: the identifiers held after a
    request are among those held before.  So every store the service
    reaches holds only identifiers of the seeded five, and at most
    five users. *)
Theorem identifiers_never_added :
  (∀ R req (db : gmap Z User), dom (app R req db).2 ⊆ dom db) ∧
  (∀ R (db : gmap Z User),
     reachable R db → dom db ⊆ dom user_db ∧ (size db ≤ 5)%nat).
Proof.
  split; [apply TestingFacts.app_dom|].
  intros R db Hdb. pose proof (TestingFacts.reachable_dom R db Hdb) as Hdom.
  split; [done|].
  rewrite <- size_dom. etrans; [apply subseteq_size, Hdom|].
  by rewrite size_dom.
Qed.

Lemma identifiers_never_added_witness :
  let R := HttpFacts.decimal_reader in
  let db := (app R (Request DELETE "/users/v1/delete/2" None) user_db).2 in
  reachable R db ∧ dom db ⊆ dom user_db ∧ (size db ≤ 5)%nat.
Proof.
  intros R db.
  assert (Hr : reachable R db) by apply reachable_step, reachable_init.
  split; [done|]. apply (proj2 identifiers_never_added R db Hr).
Defined.

(** X9.  Only [PUT] and [DELETE] requests change the dict: a request
    of any other method, to any path, leaves it as it was. *)
Theorem only_put_and_delete_write R req (db : gmap Z User) :
  req_method req ≠ PUT → req_method req ≠ DELETE → (app R req db).2 = db.
Proof.
  intros Hput Hdel.
  destruct (TestingFacts.app_cases R req db)
    as [(r & _ & ->)|[(_ & [->|[->|(i & ->)]])|[(? & _)|(? & _)]]];
    rewrite ?TestingFacts.run_store; try done.
  apply TestingFacts.get_user_store.
Qed.

Lemma only_put_and_delete_write_witness :
  let req := Request POST "/users/v1/delete/1"
               (Some {| name := "Zed"; email := "zed@example.com";
                        phone := "999"; gender := "male" |}) in
  (req_method req ≠ PUT ∧ req_method req ≠ DELETE) ∧
  (app HttpFacts.decimal_reader req user_db).2 = user_db.
Proof.
  intros req.
  assert (Hput : req_method req ≠ PUT) by discriminate.
  assert (Hdel : req_method req ≠ DELETE) by discriminate.
  split; [done|].
  apply (only_put_and_delete_write HttpFacts.decimal_reader req user_db Hput Hdel).
Defined.

(** ** How the operations compose *)

(** X10.  Of two updates of a stored user the later one wins: the
    store is what the later update alone would have left, and the
    later answer reports the fields of the earlier update as
    [old_data]. *)
Theorem later_update_wins (db : gmap Z User) user_id old first second :
  db !! user_id = Some old →
  update_user user_id second (update_user user_id first db).2 =
  (Return (JObj [("message", JStr "User updated successfully");
                 ("user_id", JInt user_id);
                 ("old_data", encode_user first);
                 ("new_data", encode_user second)]),
   (update_user user_id second db).2).
Proof.
  intros Hold.
  rewrite !(TestingFacts.update_user_present _ _ _ _ Hold). cbn [snd].
  rewrite (TestingFacts.update_user_present _ _ first second (lookup_insert_eq db user_id first)).
  by rewrite insert_insert_eq.
Qed.

Lemma later_update_wins_witness :
  let john := {| name := "John"; email := "john@example.com";
                 phone := "1234567890"; gender := "male" |} in
  let jon := {| name := "Jon"; email := "jon@example.org";
                phone := "777"; gender := "other" |} in
  let joe := {| name := "Joe"; email := "joe@example.org";
                phone := "778"; gender := "male" |} in
  user_db !! 1 = Some john ∧
  update_user 1 joe (update_user 1 jon user_db).2 =
  (Return (JObj [("message", JStr "User updated successfully");
                 ("user_id", JInt 1);
                 ("old_data", encode_user jon);
                 ("new_data", encode_user joe)]),
   (update_user 1 joe user_db).2).
Proof.
  intros john jon joe. split; [reflexivity|].
  apply (later_update_wins user_db 1 john jon joe eq_refl).
Defined.

(** X11.  A deleted user stays deleted: once Delete has removed an
    identifier, GetById, Update and a second Delete on it all raise
    the 404 and leave the store as the first Delete left it; Update
    does not bring the user back. *)
Theorem deleted_stays_deleted (db : gmap Z User) user_id user stored :
  db !! user_id = Some stored →
  let db' := (delete_user user_id db).2 in
  get_user user_id db' = (Raise (HTTPException 404 "User not found"), db') ∧
  update_user user_id user db' = (Raise (HTTPException 404 "User not found"), db') ∧
  delete_user user_id db' = (Raise (HTTPException 404 "User not found"), db').
Proof.
  intros Hstored db'. subst db'.
  rewrite (TestingFacts.delete_user_present _ _ _ Hstored). cbn [snd].
  pose proof (lookup_delete_eq db user_id) as Hgone.
  split; [by apply TestingFacts.get_user_absent|].
  split; [by apply TestingFacts.update_user_absent|].
  by apply TestingFacts.delete_user_absent.
Qed.

Lemma deleted_stays_deleted_witness :
  let john := {| name := "John"; email := "john@example.com";
                 phone := "1234567890"; gender := "male" |} in
  let db' := (delete_user 1 user_db).2 in
  user_db !! 1 = Some john ∧
  get_user 1 db' = (Raise (HTTPException 404 "User not found"), db') ∧
  update_user 1 john db' = (Raise (HTTPException 404 "User not found"), db') ∧
  delete_user 1 db' = (Raise (HTTPException 404 "User not found"), db').
Proof.
  intros john db'. split; [reflexivity|].
  apply (deleted_stays_deleted user_db 1 john john eq_refl).
Defined.

(** X12.  Updating a user with the fields it already has changes
    nothing in the store, and the answer shows the same record as
    [old_data] and as [new_data]. *)
Theorem update_with_stored_fields (db : gmap Z User) user_id stored :
  db !! user_id = Some stored →
  update_user user_id stored db =
  (Return (JObj [("message", JStr "User updated successfully");
                 ("user_id", JInt user_id);
                 ("old_data", encode_user stored);
                 ("new_data", encode_user stored)]), db).
Proof.
  intros Hstored. rewrite (TestingFacts.update_user_present _ _ _ _ Hstored).
  by rewrite insert_id.
Qed.

Lemma update_with_stored_fields_witness :
  let jane := {| name := "Jane"; email := "jane@example.com";
                 phone := "0987654321"; gender := "female" |} in
  user_db !! 2 = Some jane ∧ (update_user 2 jane user_db).2 = user_db.
Proof.
  intros jane. split; [reflexivity|].
  by rewrite (update_with_stored_fields user_db 2 jane eq_refl).
Defined.

(** X13.  Updates and deletes of two different identifiers do not
    interfere: done in either order they leave the same store,
    whether or not the store holds the identifiers. *)
Theorem distinct_identifiers_commute (db : gmap Z User) i j u v :
  i ≠ j →
  (update_user j v (update_user i u db).2).2 =
    (update_user i u (update_user j v db).2).2 ∧
  (delete_user j (update_user i u db).2).2 =
    (update_user i u (delete_user j db).2).2 ∧
  (delete_user j (delete_user i db).2).2 =
    (delete_user i (delete_user j db).2).2.
Proof.
  intros Hne. rewrite !TestingFacts.delete_user_store, !TestingFacts.update_user_store.
  rewrite lookup_delete_ne by done.
  destruct (db !! i) as [x|] eqn:Hi, (db !! j) as [y|] eqn:Hj;
    rewrite ?lookup_insert_ne, ?Hi, ?Hj by done;
    (split; [|split]); try done;
    try (by apply insert_insert_ne);
    try (by rewrite delete_insert_ne);
    by apply delete_delete.
Qed.

Lemma distinct_identifiers_commute_witness :
  let jon := {| name := "Jon"; email := "jon@example.org";
                phone := "777"; gender := "other" |} in
  (1 ≠ 2) ∧
  (delete_user 2 (update_user 1 jon user_db).2).2 =
    (update_user 1 jon (delete_user 2 user_db).2).2.
Proof.
  intros jon.
  assert (Hne : 1 ≠ 2) by discriminate.
  split; [done|].
  apply (proj1 (proj2 (distinct_identifiers_commute user_db 1 2 jon jon Hne))).
Defined.

(** ** Over HTTP *)

(** X14.  On an identifier the store does not hold, whose decimal
    numeral has at most 4300 characters, [GET] and [PUT] on
    [/users/{user_id}] and [DELETE] on [/users/v1/delete/{user_id}]
    are each answered 404 with body [{"detail": "User not found"}],
    and the store is left as it was.  (A longer numeral is not read
    as an integer by the framework.) *)
Theorem absent_identifier_answers_404 R (db : gmap Z User) user_id user body :
  (String.length (str_int user_id) ≤ 4300)%nat →
  db !! user_id = None →
  let answer := (JSONResponse 404 (JObj [("detail", JStr "User not found")]), db) in
  app R (Request GET ("/users/" +:+ str_int user_id) body) db = answer ∧
  app R (Request PUT ("/users/" +:+ str_int user_id) (Some user)) db = answer ∧
  app R (Request DELETE ("/users/v1/delete/" +:+ str_int user_id) body) db = answer.
Proof.
  intros Hnumeral Habsent answer. subst answer.
  rewrite TestingFacts.app_get_user, TestingFacts.app_update_user,
    TestingFacts.app_delete_user by done.
  unfold run.
  by rewrite (TestingFacts.get_user_absent _ _ Habsent),
    (TestingFacts.update_user_absent _ _ _ Habsent),
    (TestingFacts.delete_user_absent _ _ Habsent).
Qed.

Lemma absent_identifier_answers_404_witness :
  let R := HttpFacts.decimal_reader in
  let zed := {| name := "Zed"; email := "zed@example.com"; phone := "999"; gender := "male" |} in
  let answer := (JSONResponse 404 (JObj [("detail", JStr "User not found")]), user_db) in
  ((String.length (str_int (-3)) ≤ 4300)%nat ∧ user_db !! (-3) = None) ∧
  app R (Request GET "/users/-3" None) user_db = answer ∧
  app R (Request PUT "/users/-3" (Some zed)) user_db = answer ∧
  app R (Request DELETE "/users/v1/delete/-3" None) user_db = answer.
Proof.
  intros R zed answer.
  assert (Hnumeral : (String.length (str_int (-3)) ≤ 4300)%nat) by (cbn; lia).
  split; [by split|].
  apply (absent_identifier_answers_404 R user_db (-3) zed None Hnumeral eq_refl).
Defined.

(** ** The listing *)

(** X15.  [get_all_users] lists exactly the users the store holds:
    every member of the object under ["users"] is a stored user,
    named by its identifier in decimal; every stored user is a member
    so named; there are as many members as users held and no name
    occurs twice; and the store is not touched. *)
Theorem listing_is_the_store (db : gmap Z User) :
  ∃ members,
    get_all_users db = (Return (JObj [("users", JObj members)]), db) ∧
    NoDup members.*1 ∧
    length members = size db ∧
    (∀ name value,
       (name, value) ∈ members →
       ∃ user_id user,
         name = str_int user_id ∧ value = encode_user user ∧
         db !! user_id = Some user) ∧
    (∀ user_id user,
       db !! user_id = Some user → (str_int user_id, encode_user user) ∈ members).
Proof.
  eexists. split; [apply TestingFacts.get_all_users_members|].
  split; [apply TestingFacts.listing_names_distinct|].
  split; [by rewrite length_fmap, length_map_to_list|]. split.
  - intros name value ([k u] & [= -> ->] & Hin)%list_elem_of_fmap.
    exists k, u. split; [done|]. split; [done|]. by apply elem_of_map_to_list.
  - intros user_id user Hin. apply list_elem_of_fmap.
    exists (user_id, user). split; [done|]. by apply elem_of_map_to_list.
Qed.

Lemma listing_is_the_store_witness :
  let john := {| name := "John"; email := "john@example.com";
                 phone := "1234567890"; gender := "male" |} in
  user_db !! 1 = Some john ∧
  ∃ members,
    get_all_users user_db = (Return (JObj [("users", JObj members)]), user_db) ∧
    length members = 5%nat ∧
    ("1", encode_user john) ∈ members.
Proof.
  intros john. split; [reflexivity|].
  destruct (listing_is_the_store user_db) as (members & Hget & _ & Hlen & _ & Hmem).
  exists members. split; [exact Hget|]. split; [exact Hlen|].
  apply (Hmem 1 john eq_refl).
Defined.

End TestingBehaviour.

Module MainFacts.
Import Main.

(** X16.  [subtract] undoes [add] and [add] undoes [subtract], on
    integers of any size; [subtract_number] is [subtract] on the two
    fields of its model, so it gives 0 exactly when they are equal. *)
Theorem subtract_undoes_add x y :
  subtract_number {| a := add x y; b := y |} = x ∧
  add (subtract x y) y = x ∧
  (∀ model, subtract_number model = 0 ↔ a model = b model).
Proof.
  unfold subtract_number, subtract, add. cbn [a b].
  split; [lia|]. split; [lia|]. intros [m n]. cbn [a b]. lia.
Qed.

Lemma subtract_undoes_add_witness :
  a {| a := 7; b := 7 |} = b {| a := 7; b := 7 |} ∧
  subtract_number {| a := 7; b := 7 |} = 0.
Proof.
  split; [reflexivity|].
  apply (proj2 (proj2 (proj2 (subtract_undoes_add 0 0)) {| a := 7; b := 7 |}) eq_refl).
Defined.

End MainFacts.
